(** * contributors/markdown.py: rendering contributor statistics as markdown

    A shallow embedding of [src/contributors/markdown.py] and the properties of
    its three functions [get_contributor_table], [get_summary_table] and
    [write_markdown_file], composed by [write_to_markdown].

    Conventions of the embedding.
    - A Python [str] is a [string]; a character stands for the code point of
      the same number (0..255).
    - A Python [int] is a [Z]; [str(n)] is its decimal numeral.
    - A Python exception is an explicit [Raise] result.
    - A [dict] keeps its keys in insertion order, as Python's does: it is an
      association list with unique keys.
    - The file system is a finite map from paths to contents; [open(f, "w")]
      followed by writes replaces the contents of [f]. A failure of the
      operating system to open or write the file is outside the model. *)

From Stdlib Require Import ZArith Ascii DecimalString.
From Stdlib Require String.
From stdpp Require Import base decidable option list strings gmap.

(** ** Exceptions *)

Inductive py_exception : Set :=
  | UnboundLocalError
  | IndexError
  | KeyError.

Inductive result (A : Type) : Type :=
  | Ok (a : A)
  | Raise (e : py_exception).
Arguments Ok {A} a.
Arguments Raise {A} e.

Definition bind {A B : Type} (r : result A) (k : A → result B) : result B :=
  match r with
  | Ok a => k a
  | Raise e => Raise e
  end.

Notation "x ←! r ; k" := (bind r (λ x, k))
  (at level 20, r at level 100, k at level 200, right associativity,
   format "x  ←!  r ;  '/' k").

(** ** Python's string built-ins *)

Module PyStr.

(** [sep.join(parts)] *)
Fixpoint join (sep : string) (parts : list string) : string :=
  match parts with
  | [] => ""
  | [p] => p
  | p :: ps => p +:+ sep +:+ join sep ps
  end.

(** [''.join(parts)] *)
Fixpoint concat (parts : list string) : string :=
  match parts with
  | [] => ""
  | p :: ps => p +:+ concat ps
  end.

(** [str(n)] for an [int] *)
Definition of_int (n : Z) : string := NilZero.string_of_int (Z.to_int n).

(** [str(b)] for a [bool] *)
Definition of_bool (b : bool) : string := if b then "True" else "False".

(** The characters [str.strip()] removes: among the code points below 256
    these are TAB, LF, VT, FF, CR, FS, GS, RS, US, SPACE, NEL and NBSP. *)
Definition is_space (a : ascii) : bool :=
  let n := nat_of_ascii a in
  ((9 <=? n) && (n <=? 13) || (28 <=? n) && (n <=? 32)
   || (n =? 133) || (n =? 160))%nat.

Fixpoint lstrip (s : string) : string :=
  match s with
  | String a s' => if is_space a then lstrip s' else s
  | EmptyString => ""
  end.

Fixpoint rstrip (s : string) : string :=
  match s with
  | String a s' =>
      match rstrip s' with
      | EmptyString => if is_space a then "" else String a ""
      | r => String a r
      end
  | EmptyString => ""
  end.

(** [s.strip()] *)
Definition strip (s : string) : string := rstrip (lstrip s).

(** Put a character in front of the first piece. *)
Definition push_head (a : ascii) (pieces : list string) : list string :=
  match pieces with
  | p :: ps => String a p :: ps
  | [] => [String a ""]
  end.

(** [s.split(sep)] for a non-empty [sep]: the pieces between the
    occurrences of [sep], found from the left and not overlapping.  [skip]
    counts the characters of a matched separator still to be passed.
    (Python raises [ValueError] for an empty separator; the three
    separators of this module are constants and not empty.) *)
Fixpoint split_from (sep : string) (skip : nat) (s : string) : list string :=
  match s with
  | EmptyString => [""]
  | String a s' =>
      match skip with
      | S k => split_from sep k s'
      | O =>
          if String.prefix sep s
          then "" :: split_from sep (String.length sep - 1) s'
          else push_head a (split_from sep 0 s')
      end
  end.

Definition split (sep s : string) : list string := split_from sep 0 s.

(** [sub in s] *)
Fixpoint contains (sub s : string) : bool :=
  String.prefix sub s ||
  match s with
  | String _ s' => contains sub s'
  | EmptyString => false
  end.

End PyStr.

(** The line feed written [\n] in the source. *)
Definition LF : string := String (ascii_of_nat 10) "".

(** ** Python values and dictionaries *)

(** The values the [repository] parameter takes: [None], a [str], or a
    [list] (whose items, after the loop's own wrapping, may be any of these). *)
#[warnings="-register-all"]
Inductive py_value : Type :=
  | PyNone
  | PyStr (s : string)
  | PyList (items : list py_value).

(** Truth value of an object in an [if]. *)
Definition truthy (v : py_value) : bool :=
  match v with
  | PyNone => false
  | PyStr s => negb (String.eqb s "")
  | PyList items => negb (bool_decide (items = []))
  end.

(** The parameters that are [None] or a [str]. *)
Definition truthy_str (v : option string) : bool :=
  match v with
  | None => false
  | Some s => negb (String.eqb s "")
  end.

(** [str(v)] as an f-string inserts it. *)
Definition str_opt (v : option string) : string :=
  match v with
  | None => "None"
  | Some s => s
  end.

(** Built-ins whose result is fixed by the interpreter and not by this module. *)
Class PyRuntime : Type := {
  (** [str(round(k / n * 100, 2))] for [int]s [k] and [n], [n > 0]: a
      division and a product of IEEE-754 doubles, rounded to two decimals and
      printed by [float.__repr__]. *)
  str_round2_percent : nat → nat → string;
  (** [str(items)] of a [list]: the [repr] of each item between brackets. *)
  str_of_list : list py_value → string
}.

Definition str_value `{PyRuntime} (v : py_value) : string :=
  match v with
  | PyNone => "None"
  | PyStr s => s
  | PyList items => str_of_list items
  end.

Module Dict.

(** A [dict] with [str] keys, in insertion order. *)
Abbreviation t V := (list (string * V)) (only parsing).

Definition keys {V} (d : t V) : list string := d.*1.

(** [k in d] *)
Definition mem {V} (k : string) (d : t V) : bool := bool_decide (k ∈ keys d).

(** [d[k]] *)
Fixpoint get {V} (k : string) (d : t V) : result V :=
  match d with
  | [] => Raise KeyError
  | (k', v) :: d' => if bool_decide (k' = k) then Ok v else get k d'
  end.

(** [d[k].append(row)] on a [defaultdict(list)]: a missing key is first
    inserted, at the end, with the empty list. *)
Fixpoint append_to {A} (k : string) (row : A) (d : t (list A)) : t (list A) :=
  match d with
  | [] => [(k, [row])]
  | (k', rows) :: d' =>
      if bool_decide (k' = k) then (k', (rows ++ [row])%list) :: d'
      else (k', rows) :: append_to k row d'
  end.

(** [l.remove(x)]: drops the first occurrence ([ValueError] when there is
    none; the one call is guarded by [x in l]). *)
Fixpoint list_remove (x : string) (l : list string) : list string :=
  match l with
  | [] => []
  | y :: l' => if bool_decide (y = x) then l' else y :: list_remove x l'
  end.

End Dict.

(** ** The input records (class [ContributorStats] of [contributor_stats.py]) *)

Module ContributorStats.

Record t : Type := mk {
  username : string;
  contribution_count : Z;
  new_contributor : bool;
  commit_url : string;
  (** [None] or a list of names *)
  organizations : option (list string);
  sponsor_info : string
}.

End ContributorStats.

(** ** The local variables of the loop of [get_contributor_table]

    The loop rebinds the parameter [repository] and leaves [commit_urls]
    unbound until one of its two assignments runs, so both are carried from
    one iteration to the next. *)

Module Vars.

Record t : Type := mk {
  total_contributions : Z;
  repository : py_value;
  (** [None]: the name is not bound yet *)
  commit_urls : option string;
  organization_contributors : Dict.t (list string)
}.

End Vars.

Section Markdown.

Context `{PyRuntime}.

(** *** [get_contributor_table] (lines 143-234) *)

(** Lines 171-179. *)
Definition table_columns (start_date end_date : option string)
    (sponsor_info : string) : list string :=
  let columns := ["Username"; "All Time Contribution Count"] in
  let columns :=
    if truthy_str start_date && truthy_str end_date
    then (columns ++ ["New Contributor"])%list else columns in
  let columns :=
    if String.eqb sponsor_info "true"
    then (columns ++ ["Sponsor URL"])%list else columns in
  if truthy_str start_date && truthy_str end_date
  then (columns ++ ["Commits between " +:+ str_opt start_date +:+ " and "
                      +:+ str_opt end_date])%list
  else (columns ++ ["All Commits"])%list.

(** Lines 181-182. *)
Definition table_headers (columns : list string) : string :=
  let headers := "| " +:+ PyStr.join " | " columns +:+ " |" +:+ LF in
  headers +:+ ("| " +:+ PyStr.join " | " (replicate (length columns) "---")
               +:+ " |" +:+ LF).

(** Line 205: [url.split("/commits")[0].split("github.com/")[1]]. *)
Definition org_repo_link_name (url : string) : result string :=
  match PyStr.split "/commits" url !! 0%nat with
  | None => Raise IndexError
  | Some before =>
      match PyStr.split "github.com/" before !! 1%nat with
      | None => Raise IndexError
      | Some name => Ok name
      end
  end.

(** Lines 202-207: the loop over [commit_url_list], [commit_urls] being the
    text accumulated so far. *)
Fixpoint link_commit_urls (commit_urls : string) (commit_url_list : list string)
    : result string :=
  match commit_url_list with
  | [] => Ok commit_urls
  | url :: rest =>
      let url := PyStr.strip url in
      link_name ←! org_repo_link_name url;
      let url := "[" +:+ link_name +:+ "](" +:+ url +:+ ")" in
      link_commit_urls (commit_urls +:+ (url +:+ ", ")) rest
  end.

(** Lines 222-226: the loop over the organizations with its [break]; the
    boolean is [added_to_org]. *)
Fixpoint add_to_first_org (show_organizations_list : list string) (row : string)
    (orgs : list string) (organization_contributors : Dict.t (list string))
    : Dict.t (list string) * bool :=
  match orgs with
  | [] => (organization_contributors, false)
  | org :: rest =>
      if bool_decide (org ∈ show_organizations_list)
         || bool_decide ("all" ∈ show_organizations_list)
      then (Dict.append_to org row organization_contributors, true)
      else add_to_first_org show_organizations_list row rest
             organization_contributors
  end.

(** Lines 195-196: [if not isinstance(repository, list): repository = [repository]],
    as the items of the list [repository] is bound to afterwards. *)
Definition repository_as_list (repository : py_value) : list py_value :=
  match repository with
  | PyList items => items
  | scalar => [scalar]
  end.

(** Lines 210-217: the row up to, and without, the commit cell. *)
Definition row_start (link_to_profile : string) (columns : list string)
    (collaborator : ContributorStats.t) : string :=
  let username := ContributorStats.username collaborator in
  let contribution_count := ContributorStats.contribution_count collaborator in
  let new_contributor := ContributorStats.new_contributor collaborator in
  let row :=
    "| " +:+ (if String.eqb link_to_profile "false" then "" else "@")
    +:+ username +:+ " | " +:+ PyStr.of_int contribution_count +:+ " |" in
  let row :=
    if bool_decide ("New Contributor" ∈ columns)
    then row +:+ (" " +:+ PyStr.of_bool new_contributor +:+ " |") else row in
  if bool_decide ("Sponsor URL" ∈ columns)
  then
    if String.eqb (ContributorStats.sponsor_info collaborator) ""
    then row +:+ " not sponsorable |"
    else row +:+ (" [Sponsor Link]("
                  +:+ ContributorStats.sponsor_info collaborator +:+ ") |")
  else row.

(** Lines 220-229: the row goes to one list of [organization_contributors]. *)
Definition assign_row (show_organizations_list : list string) (row : string)
    (collaborator : ContributorStats.t)
    (organization_contributors : Dict.t (list string))
    : Dict.t (list string) :=
  let '(organization_contributors, added_to_org) :=
    add_to_first_org show_organizations_list row
      (default [] (ContributorStats.organizations collaborator))
      organization_contributors in
  if negb added_to_org
  then Dict.append_to "Independent" row organization_contributors
  else organization_contributors.

(** Lines 189-229: one iteration of the loop over [collaborators]. *)
Definition loop_body (organization : option string)
    (link_to_profile : string) (show_organizations_list columns : list string)
    (vars : Vars.t) (collaborator : ContributorStats.t) : result Vars.t :=
  let total_contributions :=
    (Vars.total_contributions vars
     + ContributorStats.contribution_count collaborator)%Z in
  let commit_urls :=
    if truthy (Vars.repository vars)
    then Some (ContributorStats.commit_url collaborator)
    else Vars.commit_urls vars in
  let repository := repository_as_list (Vars.repository vars) in
  commit_urls ←!
    (if truthy_str organization || (1 <? length repository)%nat
     then
       let commit_url_list :=
         PyStr.split "," (ContributorStats.commit_url collaborator) in
       linked ←! link_commit_urls "" commit_url_list;
       Ok (Some linked)
     else Ok commit_urls);
  let row := row_start link_to_profile columns collaborator in
  row ←!
    (match commit_urls with
     | None => Raise UnboundLocalError
     | Some text => Ok (row +:+ (" " +:+ text +:+ " |" +:+ LF))
     end);
  let organization_contributors :=
    assign_row show_organizations_list row collaborator
      (Vars.organization_contributors vars) in
  Ok (Vars.mk total_contributions (PyList repository) commit_urls
        organization_contributors).

(** Line 188: [for collaborator in collaborators]. *)
Fixpoint for_collaborators (organization : option string)
    (link_to_profile : string) (show_organizations_list columns : list string)
    (collaborators : list ContributorStats.t) (vars : Vars.t)
    : result Vars.t :=
  match collaborators with
  | [] => Ok vars
  | collaborator :: rest =>
      vars ←! loop_body organization link_to_profile show_organizations_list
                columns vars collaborator;
      for_collaborators organization link_to_profile show_organizations_list
        columns rest vars
  end.

(** Line 231: the dict comprehension. *)
Definition make_tables (headers : string)
    (organization_contributors : Dict.t (list string)) : Dict.t string :=
  (λ '(org, rows), (org, headers +:+ PyStr.concat rows))
    <$> organization_contributors.

Definition get_contributor_table (collaborators : list ContributorStats.t)
    (start_date end_date organization : option string) (repository : py_value)
    (sponsor_info link_to_profile : string)
    (show_organizations_list : list string) : result (Dict.t string * Z) :=
  let columns := table_columns start_date end_date sponsor_info in
  let headers := table_headers columns in
  vars ←! for_collaborators organization link_to_profile
            show_organizations_list columns collaborators
            (Vars.mk 0 repository None []);
  let tables := make_tables headers (Vars.organization_contributors vars) in
  Ok (tables, Vars.total_contributions vars).

(** *** [get_summary_table] (lines 104-141) *)

Definition get_summary_table (collaborators : list ContributorStats.t)
    (start_date end_date : option string) (total_contributions : Z) : string :=
  if truthy_str start_date && truthy_str end_date
  then
    let summary_table :=
      "| Total Contributors | Total Contributions | % New Contributors |"
      +:+ LF +:+ "| --- | --- | --- |" +:+ LF in
    let new_contributors_percentage :=
      if (0 <? length collaborators)%nat
      then str_round2_percent
             (length (filter (λ x, ContributorStats.new_contributor x = true)
                        collaborators))
             (length collaborators)
      else PyStr.of_int 0 in
    summary_table
    +:+ ("| " +:+ PyStr.of_int (Z.of_nat (length collaborators)) +:+ " | "
         +:+ PyStr.of_int total_contributions +:+ " | "
         +:+ new_contributors_percentage +:+ "% |" +:+ LF +:+ LF)
  else
    let summary_table :=
      "| Total Contributors | Total Contributions |" +:+ LF
      +:+ "| --- | --- |" +:+ LF in
    summary_table
    +:+ ("| " +:+ PyStr.of_int (Z.of_nat (length collaborators)) +:+ " | "
         +:+ PyStr.of_int total_contributions +:+ " |" +:+ LF +:+ LF).

(** *** [write_markdown_file] (lines 60-101)

    [out] is the text written to the file so far. *)

(** Line 96. *)
Definition org_title (org : string) : string :=
  if negb (String.eqb org "Independent")
  then "## [" +:+ org +:+ "](https://github.com/" +:+ org +:+ ")" +:+ LF
  else "## " +:+ org +:+ " " +:+ LF.

(** Lines 95-98: [for org in orgs]. *)
Fixpoint write_orgs (table : Dict.t string) (out : string) (orgs : list string)
    : result string :=
  match orgs with
  | [] => Ok out
  | org :: rest =>
      let out := out +:+ org_title org in
      text ←! Dict.get org table;
      write_orgs table (out +:+ text) rest
  end.

(** Lines 99-101. *)
Definition footer : string :=
  LF +:+ " _this file was generated by the [Organizational Contributors GitHub Action](https://github.com/HCookie/organizational_contributors)_" +:+ LF.

(** Lines 78-85: the title and the lines naming the scope. *)
Definition markdown_head (start_date end_date organization : option string)
    (repository : py_value) : string :=
  let out := "# Contributors" +:+ LF +:+ LF in
  let out :=
    if truthy_str start_date && truthy_str end_date
    then out +:+ ("- Date range for contributor list:  " +:+ str_opt start_date
                  +:+ " to " +:+ str_opt end_date +:+ LF)
    else out in
  let out :=
    if truthy_str organization
    then out +:+ ("- Organization: " +:+ str_opt organization +:+ LF)
    else out in
  let out :=
    if truthy repository
    then out +:+ ("- Repository: " +:+ str_value repository +:+ LF)
    else out in
  out +:+ LF.

(** Lines 78-101: everything written between opening and closing the file. *)
Definition markdown_text (start_date end_date organization : option string)
    (repository : py_value) (table : Dict.t string) (summary_table : string)
    : result string :=
  let out := markdown_head start_date end_date organization repository in
  let out := out +:+ summary_table in
  out ←!
    (if (length table =? 1)%nat && Dict.mem "Independent" table
     then
       text ←! Dict.get "Independent" table;
       Ok (out +:+ text)
     else
       let orgs := Dict.keys table in
       let orgs :=
         if bool_decide ("Independent" ∈ orgs)
         then (Dict.list_remove "Independent" orgs ++ ["Independent"])%list
         else orgs in
       write_orgs table out orgs);
  Ok (out +:+ footer).

(** The file named [filename] is opened in mode ["w"], so what it held
    before is replaced.  The two dictionary look-ups cannot fail (the keys
    come from the dictionary itself), which is why the contents of a file
    left half written by an exception are not modelled. *)
Definition write_markdown_file (fs : gmap string string) (filename : string)
    (start_date end_date organization : option string) (repository : py_value)
    (table : Dict.t string) (summary_table : string)
    : result (gmap string string) :=
  text ←! markdown_text start_date end_date organization repository table
            summary_table;
  Ok (<[filename := text]> fs).

(** *** [write_to_markdown] (lines 10-57) *)

Definition write_to_markdown (fs : gmap string string)
    (collaborators : list ContributorStats.t) (filename : string)
    (start_date end_date organization : option string) (repository : py_value)
    (sponsor_info link_to_profile : string)
    (show_organizations_list : list string) : result (gmap string string) :=
  r ←! get_contributor_table collaborators start_date end_date organization
         repository sponsor_info link_to_profile show_organizations_list;
  let '(table, total_contributions) := r in
  let summary_table :=
    get_summary_table collaborators start_date end_date total_contributions in
  write_markdown_file fs filename start_date end_date organization repository
    table summary_table.

End Markdown.

(** * The vocabulary of the properties *)

Section Vocabulary.

Implicit Types (show : list string) (c : ContributorStats.t).
Implicit Types (url name cell org : string) (table : Dict.t string).

(** ** Strings *)

(** [sub] occurs in [s]. *)
Definition occurs (sub s : string) : Prop :=
  ∃ pre post, s = pre +:+ sub +:+ post.

(** In [p +:+ sep] the separator is found at the very end and nowhere before:
    scanning [p +:+ sep +:+ ...] from the left, the first match of [sep]
    starts right after [p]. *)
Definition first_match (sep p : string) : Prop :=
  ∀ q r, p +:+ sep = q +:+ sep +:+ r → q = p.

(** A decision procedure for [first_match]. *)
Fixpoint no_match_inside (sep p : string) : bool :=
  match p with
  | EmptyString => true
  | String _ p' =>
      negb (String.prefix sep (p +:+ sep)) && no_match_inside sep p'
  end.

(** ** Rows *)

(** The sum of [contribution_count] over the list. *)
Definition sum_contributions (collaborators : list ContributorStats.t) : Z :=
  foldr (λ c acc, (ContributorStats.contribution_count c + acc)%Z) 0%Z
    collaborators.

(** The branch of lines 198-207 is taken: an organization is given, or the
    repository list (a scalar counting as a list of one) has several items. *)
Definition link_mode (organization : option string) (repository : py_value)
    : bool :=
  truthy_str organization || (1 <? length (repository_as_list repository))%nat.

(** The commit cell of a row that is built. *)
Definition commit_cell (organization : option string) (repository : py_value)
    (c : ContributorStats.t) : result string :=
  if link_mode organization repository
  then link_commit_urls "" (PyStr.split "," (ContributorStats.commit_url c))
  else Ok (ContributorStats.commit_url c).

(** Line 218 after lines 210-217. *)
Definition table_row (link_to_profile : string) (columns : list string)
    (c : ContributorStats.t) (cell : string) : string :=
  row_start link_to_profile columns c +:+ (" " +:+ cell +:+ " |" +:+ LF).

(** The row of a contributor, when the loop gets past it. *)
Definition is_row_of (organization : option string) (repository : py_value)
    (link_to_profile : string) (columns : list string)
    (c : ContributorStats.t) (row : string) : Prop :=
  ∃ cell, commit_cell organization repository c = Ok cell
          ∧ row = table_row link_to_profile columns c cell.

(** Lines 220-229 for a sequence of rows. *)
Definition group_rows (show_organizations_list : list string)
    (rows : list (ContributorStats.t * string))
    (organization_contributors : Dict.t (list string))
    : Dict.t (list string) :=
  foldl (λ oc p, assign_row show_organizations_list p.2 p.1 oc)
    organization_contributors rows.

(** ** Groups *)

(** The group of a contributor as the specification words it: the first of
    its organizations that is in the allow-list, or simply the first when
    the allow-list contains ["all"]; ["Independent"] when there is none. *)
Definition group_of show c : string :=
  let orgs := default [] (ContributorStats.organizations c) in
  if bool_decide ("all" ∈ show)
  then default "Independent" (head orgs)
  else default "Independent" (head (filter (λ org, org ∈ show) orgs)).

(** The rows filed under [g], in input order. *)
Definition rows_in_group show (g : string)
    (rows : list (ContributorStats.t * string)) : list string :=
  (filter (λ p, group_of show p.1 = g) rows).*2.

(** ** Cells *)

(** Range mode: both dates are given. *)
Definition is_range (start_date end_date : option string) : bool :=
  truthy_str start_date && truthy_str end_date.

(** The sponsor cell as the specification words it. *)
Definition sponsor_cell c : string :=
  if String.eqb (ContributorStats.sponsor_info c) ""
  then "not sponsorable"
  else "[Sponsor Link](" +:+ ContributorStats.sponsor_info c +:+ ")".

(** The cells before the sponsor cell: user name, count and, in range mode,
    the new-contributor flag. *)
Definition leading_cells (link_to_profile : string) (range : bool) c : string :=
  "| " +:+ (if String.eqb link_to_profile "false" then "" else "@")
  +:+ ContributorStats.username c +:+ " | "
  +:+ PyStr.of_int (ContributorStats.contribution_count c) +:+ " |"
  +:+ (if range
       then " " +:+ PyStr.of_bool (ContributorStats.new_contributor c) +:+ " |"
       else "").

(** A markdown link. *)
Definition render_link (name url : string) : string :=
  "[" +:+ name +:+ "](" +:+ url +:+ ")".

(** ** Sections of the document *)

(** A level-2 heading that links to the organization. *)
Definition linked_heading org : string :=
  "## [" +:+ org +:+ "](https://github.com/" +:+ org +:+ ")" +:+ LF.

(** The sections of all groups but ["Independent"], in the order of the
    dictionary: a linked heading, then the table. *)
Definition organization_sections table : string :=
  PyStr.concat
    ((λ p, linked_heading p.1 +:+ p.2)
       <$> filter (λ p, p.1 ≠ "Independent") table).

(** The part of the document between the summary and the footer, for a given
    heading line of the ["Independent"] group. *)
Definition sections (independent_heading : string) table : string :=
  match Dict.get "Independent" table with
  | Ok text =>
      if bool_decide (length table = 1) then text
      else organization_sections table +:+ independent_heading +:+ text
  | Raise _ => organization_sections table
  end.

(** What line 96 writes for one group, and the table after it. *)
Definition section_text table org : string :=
  org_title org
  +:+ match Dict.get org table with Ok text => text | Raise _ => "" end.

End Vocabulary.

(** ** The whole report *)

(** The text of the report, computed from the arguments alone. *)
Definition report_text `{PyRuntime} (collaborators : list ContributorStats.t)
    (start_date end_date organization : option string) (repository : py_value)
    (sponsor_info link_to_profile : string)
    (show_organizations_list : list string) : result string :=
  r ←! get_contributor_table collaborators start_date end_date organization
         repository sponsor_info link_to_profile show_organizations_list;
  markdown_text start_date end_date organization repository r.1
    (get_summary_table collaborators start_date end_date r.2).

(** ** Tables, orders and counts *)

(** A line of a markdown table: a bar, then every cell between spaces and
    followed by a bar. *)
Definition table_line (cells : list string) : string :=
  "|" +:+ PyStr.concat ((λ cell, " " +:+ cell +:+ " |") <$> cells) +:+ LF.

(** The cells of the row of a contributor, [commit] being its commit cell. *)
Definition row_cells (link_to_profile : string) (range sponsor : bool)
    (c : ContributorStats.t) (commit : string) : list string :=
  [(if String.eqb link_to_profile "false" then "" else "@")
   +:+ ContributorStats.username c;
   PyStr.of_int (ContributorStats.contribution_count c)]
  ++ (if range then [PyStr.of_bool (ContributorStats.new_contributor c)]
      else [])
  ++ (if sponsor then [sponsor_cell c] else [])
  ++ [commit].

(** The distinct items of a list, in the order in which each comes first. *)
Fixpoint first_occurrences (l : list string) : list string :=
  match l with
  | [] => []
  | x :: l' => x :: filter (λ y, y ≠ x) (first_occurrences l')
  end.

(** The part of a URL before its first ["/commits"] (all of it when there is
    none): [url.split("/commits")[0]]. *)
Definition before_commits (url : string) : string :=
  default "" (head (PyStr.split "/commits" url)).


(** ** Contributors with a field blanked *)

(** The same contributor without sponsorship address. *)
Definition without_sponsor (c : ContributorStats.t) : ContributorStats.t :=
  ContributorStats.mk (ContributorStats.username c)
    (ContributorStats.contribution_count c)
    (ContributorStats.new_contributor c) (ContributorStats.commit_url c)
    (ContributorStats.organizations c) "".

(** The same contributor, not flagged as new. *)
Definition without_new_flag (c : ContributorStats.t) : ContributorStats.t :=
  ContributorStats.mk (ContributorStats.username c)
    (ContributorStats.contribution_count c) false
    (ContributorStats.commit_url c) (ContributorStats.organizations c)
    (ContributorStats.sponsor_info c).

(** * Inputs for the examples *)

Module Examples.

(** The theorems below hold whatever the two interpreter built-ins of
    [PyRuntime] print.  The examples run with this stand-in, which writes
    the percentage as the expression the source evaluates and a list as a
    placeholder. *)
Definition runtime : PyRuntime := {|
  str_round2_percent k n :=
    "round(" +:+ PyStr.of_int (Z.of_nat k) +:+ "/" +:+ PyStr.of_int (Z.of_nat n)
    +:+ "*100,2)";
  str_of_list _ := "[...]"
|}.

Definition alice : ContributorStats.t := {|
  ContributorStats.username := "alice";
  ContributorStats.contribution_count := 5;
  ContributorStats.new_contributor := true;
  ContributorStats.commit_url :=
    "https://github.com/org1/repo1/commits?author=alice, https://github.com/org2/repo2/commits?author=alice";
  ContributorStats.organizations := Some ["org1"; "org2"];
  ContributorStats.sponsor_info := ""
|}.

Definition bob : ContributorStats.t := {|
  ContributorStats.username := "bob";
  ContributorStats.contribution_count := 7;
  ContributorStats.new_contributor := false;
  ContributorStats.commit_url :=
    "https://github.com/org1/repo1/commits?author=bob";
  ContributorStats.organizations := None;
  ContributorStats.sponsor_info := "https://github.com/sponsors/bob"
|}.

Definition carol : ContributorStats.t := {|
  ContributorStats.username := "carol";
  ContributorStats.contribution_count := 1;
  ContributorStats.new_contributor := false;
  ContributorStats.commit_url :=
    "https://github.com/org1/repo1/commits?author=carol";
  ContributorStats.organizations := Some ["org3"; "org2"];
  ContributorStats.sponsor_info := ""
|}.

(** A contributor whose [commit_url] is not a GitHub commit listing. *)
Definition mallory : ContributorStats.t := {|
  ContributorStats.username := "mallory";
  ContributorStats.contribution_count := 2;
  ContributorStats.new_contributor := true;
  ContributorStats.commit_url := "https://example.org/x/y/commits";
  ContributorStats.organizations := Some [];
  ContributorStats.sponsor_info := ""
|}.

Definition collaborators : list ContributorStats.t := [alice; bob; carol].

(** A contributor to a repository whose name begins with [commits]. *)
Definition dora : ContributorStats.t := {|
  ContributorStats.username := "dora";
  ContributorStats.contribution_count := 4;
  ContributorStats.new_contributor := false;
  ContributorStats.commit_url :=
    "https://github.com/org1/commits-viewer/commits?author=dora";
  ContributorStats.organizations := None;
  ContributorStats.sponsor_info := ""
|}.

(** A contributor to an organization whose name begins with [commits]. *)
Definition erin : ContributorStats.t := {|
  ContributorStats.username := "erin";
  ContributorStats.contribution_count := 3;
  ContributorStats.new_contributor := false;
  ContributorStats.commit_url :=
    "https://github.com/commits-org/repo1/commits?author=erin";
  ContributorStats.organizations := None;
  ContributorStats.sponsor_info := ""
|}.

(** The tables of the three, for the range 2024-01-01 to 2024-02-01, the
    organization [org1], the sponsor column, and [org2] as the one
    organization to show. *)
Definition tables : Dict.t string :=
  Eval vm_compute in
    match get_contributor_table collaborators (Some "2024-01-01")
            (Some "2024-02-01") (Some "org1") PyNone "true" "true" ["org2"] with
    | Ok r => r.1
    | Raise _ => []
    end.


End Examples.

(** * The embedding on sample inputs *)

Example split_commas :
  PyStr.split "," "a, b,,c," = ["a"; " b"; ""; "c"; ""].
Proof. reflexivity. Qed.

Example split_word :
  PyStr.split "/commits" "https://github.com/o/r/commits?author=x/commits"
  = ["https://github.com/o/r"; "?author=x"; ""].
Proof. reflexivity. Qed.

Example split_leftmost : PyStr.split "aa" "aaaxa" = [""; "axa"].
Proof. reflexivity. Qed.

Example strip_both_ends :
  PyStr.strip (" " +:+ LF +:+ "a b " +:+ LF) = "a b".
Proof. reflexivity. Qed.

Example of_int_samples :
  PyStr.of_int 0 = "0" ∧ PyStr.of_int 1234 = "1234" ∧ PyStr.of_int (-7) = "-7".
Proof. by repeat split. Qed.

(** The URL of the comment at line 204 of the source. *)
Example link_name_of_source_comment :
  org_repo_link_name "https://github.com/org1/repo2/commits?author-zkoppert"
  = Ok "org1/repo2".
Proof. reflexivity. Qed.

Example link_name_text_before_commits :
  org_repo_link_name "/commits/github.com/x" = Raise IndexError.
Proof. reflexivity. Qed.

Example report_of_three :
  report_text (H := Examples.runtime) Examples.collaborators
    (Some "2024-01-01") (Some "2024-02-01") (Some "org1") PyNone "true" "true"
    ["org2"]
  = Ok "# Contributors

- Date range for contributor list:  2024-01-01 to 2024-02-01
- Organization: org1

| Total Contributors | Total Contributions | % New Contributors |
| --- | --- | --- |
| 3 | 13 | round(1/3*100,2)% |

## [org2](https://github.com/org2)
| Username | All Time Contribution Count | New Contributor | Sponsor URL | Commits between 2024-01-01 and 2024-02-01 |
| --- | --- | --- | --- | --- |
| @alice | 5 | True | not sponsorable | [org1/repo1](https://github.com/org1/repo1/commits?author=alice), [org2/repo2](https://github.com/org2/repo2/commits?author=alice),  |
| @carol | 1 | False | not sponsorable | [org1/repo1](https://github.com/org1/repo1/commits?author=carol),  |
## Independent 
| Username | All Time Contribution Count | New Contributor | Sponsor URL | Commits between 2024-01-01 and 2024-02-01 |
| --- | --- | --- | --- | --- |
| @bob | 7 | False | [Sponsor Link](https://github.com/sponsors/bob) | [org1/repo1](https://github.com/org1/repo1/commits?author=bob),  |

 _this file was generated by the [Organizational Contributors GitHub Action](https://github.com/HCookie/organizational_contributors)_
".
Proof. vm_compute. reflexivity. Qed.

Example report_of_one :
  report_text (H := Examples.runtime) [Examples.bob] None None None
    (PyStr "org1/repo1") "false" "false" []
  = Ok "# Contributors

- Repository: org1/repo1

| Total Contributors | Total Contributions |
| --- | --- |
| 1 | 7 |

| Username | All Time Contribution Count | All Commits |
| --- | --- | --- |
| bob | 7 | https://github.com/org1/repo1/commits?author=bob |

 _this file was generated by the [Organizational Contributors GitHub Action](https://github.com/HCookie/organizational_contributors)_
".
Proof. vm_compute. reflexivity. Qed.

(** * Facts about the string built-ins *)

Section StringFacts.

#[local] Arguments String.append !_ _ / : simpl nomatch.

Lemma str_app_nil_r s : s +:+ "" = s.
Proof. induction s as [|a s IH]; simpl; [done | by rewrite IH]. Qed.

Lemma str_app_assoc s t u : (s +:+ t) +:+ u = s +:+ (t +:+ u).
Proof. induction s as [|a s IH]; simpl; [done | by rewrite IH]. Qed.

Lemma str_app_length s t :
  String.length (s +:+ t) = String.length s + String.length t.
Proof. induction s as [|a s IH]; simpl; [done | by rewrite IH]. Qed.

Lemma str_app_eq_nil s t : s +:+ t = "" → s = "" ∧ t = "".
Proof. destruct s; simpl; [done | discriminate]. Qed.

Lemma prefix_app p r : String.prefix p (p +:+ r) = true.
Proof.
  induction p as [|a p IH]; simpl; [by destruct r |].
  destruct (ascii_dec a a); [done | congruence].
Qed.

Lemma prefix_inv p s : String.prefix p s = true → ∃ r, s = p +:+ r.
Proof.
  revert s. induction p as [|a p IH]; intros s Hp.
  - by exists s.
  - destruct s as [|b s]; simpl in Hp; [done |].
    destruct (ascii_dec a b) as [->|]; [| done].
    destruct (IH _ Hp) as [r ->]. by exists r.
Qed.

(** Two ways of cutting one string: the shorter first part starts the
    longer one. *)
Lemma app_eq_app_le x y u v :
  x +:+ y = u +:+ v → String.length u ≤ String.length x → ∃ w, x = u +:+ w.
Proof.
  revert x. induction u as [|a u IH]; intros x Heq Hlen.
  - by exists x.
  - destruct x as [|b x]; simpl in *; [lia |].
    injection Heq as -> Heq.
    destruct (IH x Heq) as [w ->]; [lia |]. by exists w.
Qed.

Lemma occurs_app_l sub s t : occurs sub s → occurs sub (s +:+ t).
Proof.
  intros (pre & post & ->). exists pre, (post +:+ t).
  by rewrite !str_app_assoc.
Qed.

Lemma occurs_app_r sub s t : occurs sub t → occurs sub (s +:+ t).
Proof.
  intros (pre & post & ->). exists (s +:+ pre), post.
  by rewrite !str_app_assoc.
Qed.

Lemma occurs_cons sub a s : occurs sub s → occurs sub (String a s).
Proof. apply (occurs_app_r sub (String a "") s). Qed.

Lemma contains_false_not_occurs sub s :
  PyStr.contains sub s = false → ¬ occurs sub s.
Proof.
  induction s as [|a s IH]; cbn [PyStr.contains]; intros Hc (pre & post & Heq).
  - apply orb_false_elim in Hc as [Hp _].
    symmetry in Heq. apply str_app_eq_nil in Heq as [-> Heq].
    apply str_app_eq_nil in Heq as [-> _]. done.
  - apply orb_false_elim in Hc as [Hp Hc].
    destruct pre as [|b pre]; simpl in Heq.
    + rewrite Heq, prefix_app in Hp. done.
    + injection Heq as -> Heq. apply IH; [done |]. by exists pre, post.
Qed.

Lemma no_match_inside_first_match sep p :
  no_match_inside sep p = true → first_match sep p.
Proof.
  induction p as [|a p IH]; intros Hn q r Heq.
  - destruct q as [|b q]; [done |]. exfalso.
    apply (f_equal String.length) in Heq.
    simpl in Heq. rewrite !str_app_length in Heq. lia.
  - cbn [no_match_inside] in Hn. apply andb_prop in Hn as [Hp Hn].
    destruct q as [|b q].
    + change ("" +:+ sep +:+ r) with (sep +:+ r) in Heq.
      rewrite Heq, prefix_app in Hp. done.
    + simpl in Heq. injection Heq as -> Heq. f_equal. by apply (IH Hn q r).
Qed.

(** *** [split] *)

Lemma split_from_nonempty sep k s : PyStr.split_from sep k s ≠ [].
Proof.
  revert k. induction s as [|a s IH]; intros k; cbn [PyStr.split_from]; [done |].
  destruct k; [| apply IH].
  destruct (String.prefix sep (String a s)); [done |].
  specialize (IH 0). by destruct (PyStr.split_from sep 0 s).
Qed.

Lemma split_head sep s : ∃ p ps, PyStr.split sep s = p :: ps.
Proof.
  unfold PyStr.split. pose proof (split_from_nonempty sep 0 s).
  destruct (PyStr.split_from sep 0 s) as [|p ps]; [done | by exists p, ps].
Qed.

Lemma split_from_skip sep p r :
  PyStr.split_from sep (String.length p) (p +:+ r) = PyStr.split_from sep 0 r.
Proof.
  induction p as [|a p IH]; [done |].
  change (String a p +:+ r) with (String a (p +:+ r)).
  by cbn [PyStr.split_from String.length].
Qed.

Lemma split_at_sep sep r :
  sep ≠ "" → PyStr.split sep (sep +:+ r) = "" :: PyStr.split sep r.
Proof.
  intros Hsep. unfold PyStr.split.
  destruct sep as [|a sep]; [done |].
  change (String a sep +:+ r) with (String a (sep +:+ r)).
  cbn [PyStr.split_from].
  change (String a (sep +:+ r)) with (String a sep +:+ r).
  rewrite prefix_app. f_equal.
  replace (String.length (String a sep) - 1) with (String.length sep)
    by (simpl; lia).
  apply split_from_skip.
Qed.

Lemma split_no_match a s sep :
  String.prefix sep (String a s) = false →
  PyStr.split sep (String a s) = PyStr.push_head a (PyStr.split sep s).
Proof. unfold PyStr.split. cbn [PyStr.split_from]. by intros ->. Qed.

(** Without an occurrence of the separator there is one piece. *)
Lemma split_not_occurs sep s : ¬ occurs sep s → PyStr.split sep s = [s].
Proof.
  induction s as [|a s IH]; intros Hno; [done |].
  rewrite split_no_match.
  - rewrite IH; [done |]. intros Hocc. by apply Hno, occurs_cons.
  - destruct (String.prefix sep (String a s)) eqn:Hp; [| done].
    exfalso. apply Hno. apply prefix_inv in Hp as [r ->]. by exists "", r.
Qed.

(** The first piece ends where the separator is first found. *)
Lemma split_first_match sep p r :
  sep ≠ "" → first_match sep p →
  PyStr.split sep (p +:+ sep +:+ r) = p :: PyStr.split sep r.
Proof.
  intros Hsep. induction p as [|a p IH]; intros Hfirst.
  - change ("" +:+ sep +:+ r) with (sep +:+ r). by apply split_at_sep.
  - change (String a p +:+ sep +:+ r) with (String a (p +:+ sep +:+ r)).
    rewrite split_no_match.
    + rewrite IH; [done |]. intros q t Heq.
      assert (String a q = String a p) as [=]; [| done].
      apply (Hfirst (String a q) t). simpl. by rewrite Heq.
    + destruct (String.prefix sep (String a (p +:+ sep +:+ r))) eqn:Hp; [| done].
      exfalso. apply prefix_inv in Hp as [t Ht].
      destruct (app_eq_app_le (String a p +:+ sep) r sep t) as [w Hw].
      * by rewrite str_app_assoc.
      * rewrite str_app_length. simpl. lia.
      * by specialize (Hfirst "" w Hw).
Qed.

(** The first piece starts the string. *)
Lemma split_first_prefix sep s p ps :
  PyStr.split sep s = p :: ps → ∃ t, s = p +:+ t.
Proof.
  revert p ps. induction s as [|a s IH]; intros p ps.
  - intros [= <- <-]. by exists "".
  - destruct (String.prefix sep (String a s)) eqn:Hp.
    + unfold PyStr.split. cbn [PyStr.split_from]. rewrite Hp.
      intros [= <- <-]. by exists (String a s).
    + rewrite split_no_match by done.
      destruct (split_head sep s) as (p' & ps' & Hs). rewrite Hs.
      intros [= <- <-]. destruct (IH _ _ Hs) as [t ->]. by exists t.
Qed.

(** *** [strip] *)

Lemma lstrip_suffix s : ∃ l, s = l +:+ PyStr.lstrip s.
Proof.
  induction s as [|a s [l IH]]; simpl; [by exists "" |].
  destruct (PyStr.is_space a); [| by exists ""].
  exists (String a l). simpl. by rewrite <- IH.
Qed.

Lemma rstrip_prefix s : ∃ r, s = PyStr.rstrip s +:+ r.
Proof.
  induction s as [|a s [r IH]]; simpl; [by exists "" |].
  destruct (PyStr.rstrip s) as [|b t] eqn:Hr.
  - destruct (PyStr.is_space a).
    + by exists (String a s).
    + exists r. simpl. by rewrite IH.
  - exists r. simpl. by rewrite IH.
Qed.

Lemma occurs_strip sub s : occurs sub (PyStr.strip s) → occurs sub s.
Proof.
  intros Hocc. unfold PyStr.strip in Hocc.
  destruct (lstrip_suffix s) as [l Hl].
  destruct (rstrip_prefix (PyStr.lstrip s)) as [r Hr].
  rewrite Hl, Hr. by apply occurs_app_r, occurs_app_l.
Qed.

End StringFacts.

(** * Facts about the dictionaries *)

Section DictFacts.

Context {A : Type}.
Implicit Types (d : Dict.t (list A)) (k g : string).

Lemma get_raises_key_error {V} k (d : Dict.t V) e :
  Dict.get k d = Raise e → e = KeyError.
Proof.
  induction d as [|[k' v] d IH]; simpl; [congruence |].
  case_bool_decide; [done | apply IH].
Qed.

Lemma get_is_ok {V} k (d : Dict.t V) :
  k ∈ Dict.keys d → ∃ v, Dict.get k d = Ok v.
Proof.
  induction d as [|[k' v] d IH]; simpl; [by intros ?%elem_of_nil |].
  intros Hin. case_bool_decide as Hk; [by exists v |].
  apply elem_of_cons in Hin as [-> | Hin]; [done | by apply IH].
Qed.

Lemma get_not_in {V} k (d : Dict.t V) :
  k ∉ Dict.keys d → Dict.get k d = Raise KeyError.
Proof.
  induction d as [|[k' v] d IH]; simpl; [done |].
  intros Hin. apply not_elem_of_cons in Hin as [Hne Hin].
  case_bool_decide; [congruence | by apply IH].
Qed.

(** What [d[k].append(row)] leaves under each key. *)
Lemma get_append_to g k (row : A) d :
  Dict.get g (Dict.append_to k row d) =
    if bool_decide (g = k)
    then match Dict.get k d with
         | Ok rows => Ok (rows ++ [row])
         | Raise _ => Ok [row]
         end
    else Dict.get g d.
Proof.
  induction d as [|[k' rows] d IH]; simpl.
  - repeat case_bool_decide; congruence.
  - destruct (decide (k' = k)) as [-> | Hne].
    + rewrite !bool_decide_eq_true_2 by done. simpl.
      repeat case_bool_decide; congruence.
    + rewrite (bool_decide_eq_false_2 (k' = k)) by done. simpl.
      rewrite IH. repeat case_bool_decide; congruence.
Qed.

Lemma keys_append_to k (row : A) d :
  Dict.keys (Dict.append_to k row d) =
    if bool_decide (k ∈ Dict.keys d) then Dict.keys d else Dict.keys d ++ [k].
Proof.
  unfold Dict.keys. induction d as [|[k' rows] d IH]; [done |].
  cbn [Dict.append_to]. destruct (decide (k' = k)) as [-> | Hne].
  - rewrite (bool_decide_eq_true_2 (k = k)) by done.
    rewrite !fmap_cons. cbn [fst].
    by rewrite bool_decide_eq_true_2 by apply list_elem_of_here.
  - rewrite (bool_decide_eq_false_2 (k' = k)) by done.
    rewrite !fmap_cons, IH. cbn [fst].
    destruct (decide (k ∈ d.*1)) as [Hin | Hin].
    + rewrite (bool_decide_eq_true_2 (k ∈ d.*1)) by done.
      by rewrite bool_decide_eq_true_2 by (by apply list_elem_of_further).
    + rewrite (bool_decide_eq_false_2 (k ∈ d.*1)) by done.
      rewrite bool_decide_eq_false_2; [done |].
      intros [?|?]%elem_of_cons; congruence.
Qed.

Lemma keys_append_to_NoDup k (row : A) d :
  NoDup (Dict.keys d) → NoDup (Dict.keys (Dict.append_to k row d)).
Proof.
  intros Hnd. rewrite keys_append_to. case_bool_decide as Hin; [done |].
  apply NoDup_app. split_and!; [done | | apply NoDup_singleton].
  intros x Hx ->%list_elem_of_singleton. done.
Qed.

End DictFacts.

(** * The loop of [get_contributor_table] as a function of its input *)

Section TableFacts.

Context `{PyRuntime}.

Lemma link_mode_as_list organization repository :
  link_mode organization (PyList (repository_as_list repository))
  = link_mode organization repository.
Proof. done. Qed.

Lemma truthy_as_list repository :
  truthy repository = true →
  truthy (PyList (repository_as_list repository)) = true.
Proof.
  destruct repository as [| s | items]; simpl; try done.
Qed.

Lemma commit_cell_as_list organization repository c :
  commit_cell organization (PyList (repository_as_list repository)) c
  = commit_cell organization repository c.
Proof. done. Qed.

(** In a state in which [commit_urls] gets assigned, an iteration builds the
    row around the commit cell, or raises as the making of the cell does. *)
Lemma loop_body_good organization link_to_profile show columns vars c :
  link_mode organization (Vars.repository vars) = true
  ∨ truthy (Vars.repository vars) = true →
  loop_body organization link_to_profile show columns vars c =
    match commit_cell organization (Vars.repository vars) c with
    | Raise e => Raise e
    | Ok cell =>
        Ok (Vars.mk
              (Vars.total_contributions vars
               + ContributorStats.contribution_count c)%Z
              (PyList (repository_as_list (Vars.repository vars)))
              (Some cell)
              (assign_row show (table_row link_to_profile columns c cell) c
                 (Vars.organization_contributors vars)))
    end.
Proof.
  intros Hgood. unfold loop_body, commit_cell, link_mode in *.
  destruct (truthy_str organization
            || (1 <? length (repository_as_list (Vars.repository vars))))
    eqn:Hmode.
  - by destruct (link_commit_urls "" _).
  - destruct Hgood as [Hgood | ->]; done.
Qed.

Lemma good_as_list organization repository :
  link_mode organization repository = true ∨ truthy repository = true →
  link_mode organization (PyList (repository_as_list repository)) = true
  ∨ truthy (PyList (repository_as_list repository)) = true.
Proof. intros [Hmode | Hrepo]; [by left | right]. by apply truthy_as_list. Qed.

(** From such a state, a loop that ends has built one row per contributor,
    added the counts, and filed the rows in input order. *)
Lemma for_collaborators_ok organization link_to_profile show columns cs :
  ∀ vars vars',
    link_mode organization (Vars.repository vars) = true
    ∨ truthy (Vars.repository vars) = true →
    for_collaborators organization link_to_profile show columns cs vars
    = Ok vars' →
    ∃ rows,
      Forall2 (is_row_of organization (Vars.repository vars) link_to_profile
                 columns) cs rows
      ∧ Vars.total_contributions vars'
        = (Vars.total_contributions vars + sum_contributions cs)%Z
      ∧ Vars.organization_contributors vars'
        = group_rows show (zip cs rows) (Vars.organization_contributors vars).
Proof.
  induction cs as [|c cs IH]; intros vars vars' Hgood Hrun.
  - injection Hrun as <-. exists []. split_and!; [constructor | simpl; lia | done].
  - cbn [for_collaborators] in Hrun. rewrite loop_body_good in Hrun by done.
    destruct (commit_cell organization (Vars.repository vars) c)
      as [cell |] eqn:Hcell; [| done].
    cbn [bind] in Hrun.
    apply IH in Hrun as (rows & Hrows & Htotal & Hoc);
      [| by apply good_as_list].
    cbn [Vars.repository Vars.total_contributions
         Vars.organization_contributors] in *.
    exists (table_row link_to_profile columns c cell :: rows).
    split_and!.
    + constructor; [by exists cell | done].
    + rewrite Htotal. simpl. lia.
    + by rewrite Hoc.
Qed.

(** And the loop does end when every commit cell can be made. *)
Lemma for_collaborators_returns organization link_to_profile show columns cs :
  ∀ vars,
    link_mode organization (Vars.repository vars) = true
    ∨ truthy (Vars.repository vars) = true →
    Forall (λ c, ∃ cell,
              commit_cell organization (Vars.repository vars) c = Ok cell) cs →
    ∃ vars',
      for_collaborators organization link_to_profile show columns cs vars
      = Ok vars'.
Proof.
  induction cs as [|c cs IH]; intros vars Hgood Hcells; [by eexists |].
  apply Forall_cons in Hcells as [[cell Hcell] Hcells].
  cbn [for_collaborators]. rewrite loop_body_good, Hcell by done.
  cbn [bind]. apply IH; [by apply good_as_list | done].
Qed.

(** With neither an organization nor a truthy [repository], the first
    iteration reads [commit_urls] before anything was assigned to it. *)
Lemma loop_body_unbound organization link_to_profile show columns vars c :
  truthy_str organization = false →
  truthy (Vars.repository vars) = false →
  Vars.commit_urls vars = None →
  loop_body organization link_to_profile show columns vars c
  = Raise UnboundLocalError.
Proof.
  intros Horg Hrepo Hcu. unfold loop_body. rewrite Horg, Hrepo, Hcu.
  destruct (Vars.repository vars) as [| s | [|item items]]; simpl in *; done.
Qed.

Lemma link_mode_false_inv organization repository :
  link_mode organization repository = false →
  truthy repository = false →
  truthy_str organization = false.
Proof. unfold link_mode. by intros [? _]%orb_false_elim. Qed.

(** What a successful call of [get_contributor_table] has computed. *)
Lemma get_contributor_table_ok cs start_date end_date organization repository
    sponsor_info link_to_profile show tables total :
  get_contributor_table cs start_date end_date organization repository
    sponsor_info link_to_profile show = Ok (tables, total) →
  let columns := table_columns start_date end_date sponsor_info in
  ∃ rows,
    Forall2 (is_row_of organization repository link_to_profile columns) cs rows
    ∧ total = sum_contributions cs
    ∧ tables = make_tables (table_headers columns)
                 (group_rows show (zip cs rows) []).
Proof.
  intros Hrun columns. unfold get_contributor_table in Hrun.
  fold columns in Hrun.
  destruct (for_collaborators organization link_to_profile show columns cs
              (Vars.mk 0 repository None [])) as [vars' |] eqn:Hloop; [| done].
  cbn [bind] in Hrun. injection Hrun as <- <-.
  destruct cs as [|c cs].
  { injection Hloop as <-. exists []. split_and!; [constructor | done | done]. }
  destruct (link_mode organization repository) eqn:Hmode.
  - apply for_collaborators_ok in Hloop as (rows & Hrows & Htotal & Hoc);
      [| by left].
    exists rows. cbn [Vars.repository Vars.total_contributions
                      Vars.organization_contributors] in *.
    split_and!; [done | rewrite Htotal; lia | by rewrite Hoc].
  - destruct (truthy repository) eqn:Hrepo.
    + apply for_collaborators_ok in Hloop as (rows & Hrows & Htotal & Hoc);
        [| by right].
      exists rows. cbn [Vars.repository Vars.total_contributions
                        Vars.organization_contributors] in *.
      split_and!; [done | rewrite Htotal; lia | by rewrite Hoc].
    + cbn [for_collaborators] in Hloop.
      rewrite loop_body_unbound in Hloop; try done.
      by eapply link_mode_false_inv.
Qed.

(** [get_contributor_table] returns when [commit_urls] gets assigned and
    every commit cell can be made; without links that is whenever
    [repository] is truthy. *)
Lemma get_contributor_table_returns cs start_date end_date organization
    repository sponsor_info link_to_profile show :
  link_mode organization repository = true ∨ truthy repository = true →
  Forall (λ c, ∃ cell, commit_cell organization repository c = Ok cell) cs →
  ∃ tables,
    get_contributor_table cs start_date end_date organization repository
      sponsor_info link_to_profile show = Ok (tables, sum_contributions cs).
Proof.
  intros Hgood Hcells. unfold get_contributor_table.
  destruct (for_collaborators_returns organization link_to_profile show
              (table_columns start_date end_date sponsor_info) cs
              (Vars.mk 0 repository None []) Hgood Hcells) as [vars' Hloop].
  rewrite Hloop. cbn [bind].
  apply for_collaborators_ok in Hloop as (rows & _ & -> & _); [| done].
  by eexists.
Qed.

Lemma get_contributor_table_returns_raw cs start_date end_date organization
    repository sponsor_info link_to_profile show :
  link_mode organization repository = false →
  truthy repository = true →
  ∃ tables,
    get_contributor_table cs start_date end_date organization repository
      sponsor_info link_to_profile show = Ok (tables, sum_contributions cs).
Proof.
  intros Hmode Hrepo. apply get_contributor_table_returns; [by right |].
  apply Forall_forall. intros c _. unfold commit_cell. rewrite Hmode.
  by eexists.
Qed.

End TableFacts.

(** * Properties of the report *)

(** ** The total of the contributions *)

Lemma summary_shows_total `{PyRuntime} cs start_date end_date total :
  occurs (" | " +:+ PyStr.of_int total +:+ " |")
    (get_summary_table cs start_date end_date total).
Proof.
  unfold get_summary_table.
  destruct (truthy_str start_date && truthy_str end_date).
  - set (hdr := "| Total Contributors | Total Contributions | % New Contributors |"
                +:+ LF +:+ "| --- | --- | --- |" +:+ LF).
    set (pct := if (0 <? length cs)%nat then _ else _).
    exists (hdr +:+ "| " +:+ PyStr.of_int (Z.of_nat (length cs))),
           (" " +:+ pct +:+ "% |" +:+ LF +:+ LF).
    by rewrite !str_app_assoc.
  - set (hdr := "| Total Contributors | Total Contributions |" +:+ LF
                +:+ "| --- | --- |" +:+ LF).
    exists (hdr +:+ "| " +:+ PyStr.of_int (Z.of_nat (length cs))), (LF +:+ LF).
    by rewrite !str_app_assoc.
Qed.

(** C1: the total that [get_contributor_table] returns is the sum of
    [contribution_count] over all contributors, and it is this sum that
    [write_to_markdown] hands to [get_summary_table], which prints it in the
    second cell of the summary row. *)
Theorem total_contributions_is_sum `{PyRuntime} cs start_date end_date
    organization repository sponsor_info link_to_profile show tables total :
  get_contributor_table cs start_date end_date organization repository
    sponsor_info link_to_profile show = Ok (tables, total) →
  total = sum_contributions cs
  ∧ (∀ fs filename,
       write_to_markdown fs cs filename start_date end_date organization
         repository sponsor_info link_to_profile show
       = write_markdown_file fs filename start_date end_date organization
           repository tables
           (get_summary_table cs start_date end_date (sum_contributions cs)))
  ∧ occurs (" | " +:+ PyStr.of_int (sum_contributions cs) +:+ " |")
      (get_summary_table cs start_date end_date total).
Proof.
  intros Hrun.
  destruct (get_contributor_table_ok _ _ _ _ _ _ _ _ _ _ Hrun)
    as (rows & _ & Htotal & _).
  split_and!; [done | |].
  - intros fs filename. unfold write_to_markdown. rewrite Hrun. cbn [bind].
    by rewrite Htotal.
  - rewrite Htotal. apply summary_shows_total.
Qed.

Lemma total_contributions_is_sum_witness :
  get_contributor_table Examples.collaborators (Some "2024-01-01")
    (Some "2024-02-01") (Some "org1") PyNone "true" "true" ["org2"]
  = Ok (Examples.tables, 13%Z)
  ∧ 13%Z = sum_contributions Examples.collaborators.
Proof.
  assert (Hrun :
    get_contributor_table Examples.collaborators (Some "2024-01-01")
      (Some "2024-02-01") (Some "org1") PyNone "true" "true" ["org2"]
    = Ok (Examples.tables, 13%Z)) by (vm_compute; reflexivity).
  exact (conj Hrun
           (proj1 (total_contributions_is_sum (H := Examples.runtime)
                     _ _ _ _ _ _ _ _ _ _ Hrun))).
Defined.

(** ** The unbound commit cell *)

(** C10: with neither an organization nor a repository (both falsy) and at
    least one contributor, [get_contributor_table] raises
    [UnboundLocalError] at the first row: nothing was assigned to
    [commit_urls], so the raw [commit_url] is never shown in this
    configuration. *)
Theorem unbound_commit_urls cs start_date end_date organization repository
    sponsor_info link_to_profile show :
  truthy_str organization = false →
  truthy repository = false →
  cs ≠ [] →
  get_contributor_table cs start_date end_date organization repository
    sponsor_info link_to_profile show = Raise UnboundLocalError.
Proof.
  intros Horg Hrepo Hcs. destruct cs as [|c cs]; [done |].
  unfold get_contributor_table. cbn [for_collaborators].
  by rewrite loop_body_unbound.
Qed.

Lemma unbound_commit_urls_witness :
  get_contributor_table [Examples.alice; Examples.bob] None None None PyNone
    "false" "true" ["all"] = Raise UnboundLocalError
  ∧ get_contributor_table [Examples.bob] (Some "2024-01-01")
      (Some "2024-02-01") (Some "") (PyList []) "true" "true" []
    = Raise UnboundLocalError.
Proof.
  split.
  - apply unbound_commit_urls; [reflexivity | reflexivity | discriminate].
  - apply unbound_commit_urls; [reflexivity | reflexivity | discriminate].
Defined.

(** ** Grouping by organization *)

Section Grouping.

Implicit Types (show : list string) (c : ContributorStats.t).

Lemma add_to_first_org_all show row orgs oc :
  "all" ∈ show →
  add_to_first_org show row orgs oc =
    match orgs with
    | [] => (oc, false)
    | org :: _ => (Dict.append_to org row oc, true)
    end.
Proof.
  intros Hall. destruct orgs as [|org orgs]; [done |].
  cbn [add_to_first_org].
  rewrite (bool_decide_eq_true_2 ("all" ∈ show)) by done.
  by rewrite orb_true_r.
Qed.

Lemma add_to_first_org_listed show row orgs oc :
  "all" ∉ show →
  add_to_first_org show row orgs oc =
    match head (filter (λ org, org ∈ show) orgs) with
    | None => (oc, false)
    | Some org => (Dict.append_to org row oc, true)
    end.
Proof.
  intros Hall. induction orgs as [|org orgs IH]; [done |].
  cbn [add_to_first_org].
  rewrite (bool_decide_eq_false_2 ("all" ∈ show)) by done.
  rewrite orb_false_r. rewrite filter_cons.
  destruct (decide (org ∈ show)) as [Hin | Hin].
  - by rewrite bool_decide_eq_true_2.
  - by rewrite bool_decide_eq_false_2.
Qed.

(** The loop with its [break] files the row under [group_of]. *)
Lemma assign_row_group show row c oc :
  assign_row show row c oc = Dict.append_to (group_of show c) row oc.
Proof.
  unfold assign_row, group_of.
  destruct (decide ("all" ∈ show)) as [Hall | Hall].
  - rewrite add_to_first_org_all, bool_decide_eq_true_2 by done.
    by destruct (default [] (ContributorStats.organizations c)).
  - rewrite add_to_first_org_listed, bool_decide_eq_false_2 by done.
    by destruct (head _).
Qed.

Lemma group_rows_cons show p rows oc :
  group_rows show (p :: rows) oc
  = group_rows show rows (Dict.append_to (group_of show p.1) p.2 oc).
Proof. unfold group_rows. cbn [foldl]. by rewrite assign_row_group. Qed.

Lemma rows_in_group_cons show g p rows :
  rows_in_group show g (p :: rows)
  = if bool_decide (group_of show p.1 = g)
    then p.2 :: rows_in_group show g rows
    else rows_in_group show g rows.
Proof.
  unfold rows_in_group. rewrite filter_cons.
  destruct (decide (group_of show p.1 = g)).
  - by rewrite bool_decide_eq_true_2.
  - by rewrite bool_decide_eq_false_2.
Qed.

Lemma get_group_rows show g rows :
  ∀ oc,
    Dict.get g (group_rows show rows oc) =
      match Dict.get g oc with
      | Ok old => Ok (old ++ rows_in_group show g rows)
      | Raise _ =>
          match rows_in_group show g rows with
          | [] => Raise KeyError
          | new => Ok new
          end
      end.
Proof.
  induction rows as [|p rows IH]; intros oc.
  - cbn. destruct (Dict.get g oc) as [old | e] eqn:Hget.
    + by rewrite app_nil_r.
    + by rewrite (get_raises_key_error _ _ _ Hget).
  - rewrite group_rows_cons, IH, get_append_to, rows_in_group_cons.
    destruct (decide (g = group_of show p.1)) as [-> | Hne].
    + rewrite !bool_decide_eq_true_2 by done.
      destruct (Dict.get (group_of show p.1) oc) as [old | e]; [| done].
      by rewrite <- app_assoc.
    + rewrite !bool_decide_eq_false_2 by done. done.
Qed.

Lemma keys_group_rows_NoDup show rows :
  ∀ oc, NoDup (Dict.keys oc) → NoDup (Dict.keys (group_rows show rows oc)).
Proof.
  induction rows as [|p rows IH]; intros oc Hnd; [done |].
  rewrite group_rows_cons. by apply IH, keys_append_to_NoDup.
Qed.

Lemma keys_make_tables headers (oc : Dict.t (list string)) :
  Dict.keys (make_tables headers oc) = Dict.keys oc.
Proof.
  unfold Dict.keys, make_tables. induction oc as [|[k rows] oc IH]; [done |].
  rewrite !fmap_cons. by rewrite IH.
Qed.

Lemma get_make_tables headers g (oc : Dict.t (list string)) :
  Dict.get g (make_tables headers oc) =
    match Dict.get g oc with
    | Ok rows => Ok (headers +:+ PyStr.concat rows)
    | Raise e => Raise e
    end.
Proof.
  unfold make_tables. induction oc as [|[k rows] oc IH]; [done |].
  rewrite fmap_cons. cbn [Dict.get]. by case_bool_decide.
Qed.

End Grouping.

(** C2: in the result of [get_contributor_table] the table of a group holds,
    below the header and in input order, the rows of exactly those
    contributors whose group is that one, the group of a contributor being
    the first of its organizations that is in the allow-list (simply the
    first one when the allow-list contains ["all"]) and ["Independent"] when
    none matches or there is none; a group without contributor has no table.
    Every contributor has one group, so its row is in one table and in no
    other. *)
Theorem each_row_in_one_group cs start_date end_date organization repository
    sponsor_info link_to_profile show tables total :
  get_contributor_table cs start_date end_date organization repository
    sponsor_info link_to_profile show = Ok (tables, total) →
  let columns := table_columns start_date end_date sponsor_info in
  ∃ rows,
    Forall2 (is_row_of organization repository link_to_profile columns) cs rows
    ∧ NoDup (Dict.keys tables)
    ∧ ∀ g,
        Dict.get g tables =
          match rows_in_group show g (zip cs rows) with
          | [] => Raise KeyError
          | in_group => Ok (table_headers columns +:+ PyStr.concat in_group)
          end.
Proof.
  intros Hrun columns.
  destruct (get_contributor_table_ok _ _ _ _ _ _ _ _ _ _ Hrun)
    as (rows & Hrows & _ & ->).
  exists rows. split_and!; [done | |].
  - rewrite keys_make_tables. apply keys_group_rows_NoDup. constructor.
  - intros g. rewrite get_make_tables, get_group_rows. cbn [Dict.get].
    by destruct (rows_in_group show g (zip cs rows)).
Qed.

Lemma each_row_in_one_group_witness :
  get_contributor_table Examples.collaborators (Some "2024-01-01")
    (Some "2024-02-01") (Some "org1") PyNone "true" "true" ["org2"]
  = Ok (Examples.tables, 13%Z)
  ∧ ∃ rows,
      Forall2
        (is_row_of (Some "org1") PyNone "true"
           (table_columns (Some "2024-01-01") (Some "2024-02-01") "true"))
        Examples.collaborators rows
      ∧ NoDup (Dict.keys Examples.tables)
      ∧ ∀ g,
          Dict.get g Examples.tables =
            match rows_in_group ["org2"] g (zip Examples.collaborators rows) with
            | [] => Raise KeyError
            | in_group =>
                Ok (table_headers
                      (table_columns (Some "2024-01-01") (Some "2024-02-01")
                         "true")
                    +:+ PyStr.concat in_group)
            end.
Proof.
  assert (Hrun :
    get_contributor_table Examples.collaborators (Some "2024-01-01")
      (Some "2024-02-01") (Some "org1") PyNone "true" "true" ["org2"]
    = Ok (Examples.tables, 13%Z)) by (vm_compute; reflexivity).
  exact (conj Hrun (each_row_in_one_group _ _ _ _ _ _ _ _ _ _ Hrun)).
Defined.

(** ** The cells of a row *)

Section Cells.

Implicit Types (c : ContributorStats.t) (url name cell : string).

Lemma new_contributor_column start_date end_date sponsor_info :
  bool_decide ("New Contributor"
               ∈ table_columns start_date end_date sponsor_info)
  = is_range start_date end_date.
Proof.
  unfold table_columns, is_range.
  destruct (truthy_str start_date && truthy_str end_date);
    destruct (String.eqb sponsor_info "true"); by vm_compute.
Qed.

Lemma sponsor_column start_date end_date sponsor_info :
  bool_decide ("Sponsor URL" ∈ table_columns start_date end_date sponsor_info)
  = String.eqb sponsor_info "true".
Proof.
  unfold table_columns.
  destruct (truthy_str start_date && truthy_str end_date);
    destruct (String.eqb sponsor_info "true"); by vm_compute.
Qed.

Lemma row_start_sponsor start_date end_date link_to_profile c :
  row_start link_to_profile (table_columns start_date end_date "true") c
  = leading_cells link_to_profile (is_range start_date end_date) c
    +:+ " " +:+ sponsor_cell c +:+ " |".
Proof.
  unfold row_start, leading_cells, sponsor_cell.
  rewrite new_contributor_column, sponsor_column, String.eqb_refl.
  destruct (is_range start_date end_date);
    destruct (String.eqb (ContributorStats.sponsor_info c) "");
    rewrite ?str_app_assoc, ?str_app_nil_r; reflexivity.
Qed.

(** The name taken from a URL of the expected shape. *)
Lemma org_repo_link_name_of_shape pre seg post :
  first_match "github.com/" pre →
  ¬ occurs "github.com/" seg →
  first_match "/commits" (pre +:+ "github.com/" +:+ seg) →
  org_repo_link_name (pre +:+ "github.com/" +:+ seg +:+ "/commits" +:+ post)
  = Ok seg.
Proof.
  intros Hgh Hseg Hcommits. unfold org_repo_link_name.
  replace (pre +:+ "github.com/" +:+ seg +:+ "/commits" +:+ post)
    with ((pre +:+ "github.com/" +:+ seg) +:+ "/commits" +:+ post)
    by (by rewrite !str_app_assoc).
  rewrite split_first_match by done. cbn [lookup list_lookup].
  by rewrite split_first_match, split_not_occurs by done.
Qed.

(** A commit listing of GitHub has the expected shape. *)
Example link_name_of_listing :
  org_repo_link_name
    ("https://" +:+ "github.com/" +:+ "org1/repo2" +:+ "/commits"
     +:+ "?author=zkoppert")
  = Ok "org1/repo2".
Proof.
  apply org_repo_link_name_of_shape.
  - by apply no_match_inside_first_match.
  - by apply contains_false_not_occurs.
  - by apply no_match_inside_first_match.
Qed.

Lemma org_repo_link_name_raises url e :
  org_repo_link_name url = Raise e → e = IndexError.
Proof.
  unfold org_repo_link_name. destruct (_ !! 0); [| congruence].
  destruct (_ !! 1); congruence.
Qed.

(** No ["github.com/"], no second piece. *)
Lemma org_repo_link_name_missing url :
  ¬ occurs "github.com/" url → org_repo_link_name url = Raise IndexError.
Proof.
  intros Hno. unfold org_repo_link_name.
  destruct (split_head "/commits" url) as (p & ps & Hsplit). rewrite Hsplit.
  cbn [lookup list_lookup].
  destruct (split_first_prefix _ _ _ _ Hsplit) as [t ->].
  rewrite split_not_occurs; [done |].
  intros Hocc. by apply Hno, occurs_app_l.
Qed.

Lemma link_commit_urls_spec urls :
  ∀ acc out,
    link_commit_urls acc urls = Ok out →
    ∃ names,
      Forall2 (λ url name, org_repo_link_name (PyStr.strip url) = Ok name)
        urls names
      ∧ out = acc +:+ PyStr.concat
                        (zip_with (λ url name,
                                     render_link name (PyStr.strip url) +:+ ", ")
                           urls names).
Proof.
  induction urls as [|url urls IH]; intros acc out Hrun.
  - injection Hrun as <-. exists []. split; [constructor |].
    by rewrite str_app_nil_r.
  - cbn [link_commit_urls] in Hrun.
    destruct (org_repo_link_name (PyStr.strip url)) as [name |] eqn:Hname;
      [| done].
    cbn [bind] in Hrun. apply IH in Hrun as (names & Hnames & ->).
    exists (name :: names). split; [by constructor |].
    cbn [zip_with PyStr.concat]. unfold render_link.
    by rewrite !str_app_assoc.
Qed.

Lemma link_commit_urls_raises urls :
  ∀ acc e, link_commit_urls acc urls = Raise e → e = IndexError.
Proof.
  induction urls as [|url urls IH]; intros acc e Hrun; [done |].
  cbn [link_commit_urls] in Hrun.
  destruct (org_repo_link_name (PyStr.strip url)) as [name |] eqn:Hname.
  - cbn [bind] in Hrun. by eapply IH.
  - injection Hrun as <-. by eapply org_repo_link_name_raises.
Qed.

Lemma link_commit_urls_missing urls url :
  url ∈ urls → ¬ occurs "github.com/" url →
  ∀ acc, link_commit_urls acc urls = Raise IndexError.
Proof.
  intros Hin Hno. induction urls as [|url' urls IH]; intros acc.
  { by apply elem_of_nil in Hin. }
  cbn [link_commit_urls].
  destruct (org_repo_link_name (PyStr.strip url')) as [name | e] eqn:Hname.
  - cbn [bind]. apply elem_of_cons in Hin as [-> | Hin]; [| by apply IH].
    rewrite org_repo_link_name_missing in Hname; [done |].
    intros Hocc. by apply Hno, occurs_strip.
  - cbn [bind]. by rewrite (org_repo_link_name_raises _ _ Hname).
Qed.

(** The rows of a successful run, as their commit cells. *)
Lemma rows_as_cells organization repository link_to_profile columns cs rows :
  Forall2 (is_row_of organization repository link_to_profile columns) cs rows →
  ∃ cells,
    Forall2 (λ c cell, commit_cell organization repository c = Ok cell) cs cells
    ∧ rows = zip_with (table_row link_to_profile columns) cs cells.
Proof.
  induction 1 as [|c row cs rows (cell & Hcell & ->) _ (cells & Hcells & ->)].
  - exists []. by split; [constructor |].
  - exists (cell :: cells). by split; [constructor |].
Qed.

End Cells.

(** C7: when the sponsor column is requested ([sponsor_info == "true"]) the
    column ["Sponsor URL"] is present and every row that is built carries,
    after the leading cells and before the commit cell, the sponsor cell: the
    text [not sponsorable] for a contributor whose [sponsor_info] is empty,
    the link [[Sponsor Link](<sponsor_info>)] otherwise. *)
Theorem sponsor_cell_in_rows cs start_date end_date organization repository
    link_to_profile show tables total :
  get_contributor_table cs start_date end_date organization repository
    "true" link_to_profile show = Ok (tables, total) →
  let columns := table_columns start_date end_date "true" in
  "Sponsor URL" ∈ columns
  ∧ ∃ cells,
      Forall2 (λ c cell, commit_cell organization repository c = Ok cell)
        cs cells
      ∧ tables =
          make_tables (table_headers columns)
            (group_rows show
               (zip cs
                  (zip_with
                     (λ c cell,
                        leading_cells link_to_profile
                          (is_range start_date end_date) c
                        +:+ " " +:+ sponsor_cell c +:+ " |"
                        +:+ " " +:+ cell +:+ " |" +:+ LF)
                     cs cells))
               []).
Proof.
  intros Hrun columns. split.
  { eapply bool_decide_eq_true_1. unfold columns. by rewrite sponsor_column. }
  destruct (get_contributor_table_ok _ _ _ _ _ _ _ _ _ _ Hrun)
    as (rows & Hrows & _ & ->).
  apply rows_as_cells in Hrows as (cells & Hcells & ->).
  exists cells. split; [done |]. do 3 f_equal.
  apply zip_with_ext; [| done | done].
  intros c cell. unfold table_row. rewrite row_start_sponsor.
  by rewrite !str_app_assoc.
Qed.

Lemma sponsor_cell_in_rows_witness :
  get_contributor_table Examples.collaborators (Some "2024-01-01")
    (Some "2024-02-01") (Some "org1") PyNone "true" "true" ["org2"]
  = Ok (Examples.tables, 13%Z)
  ∧ "Sponsor URL"
    ∈ table_columns (Some "2024-01-01") (Some "2024-02-01") "true"
  ∧ ∃ cells,
      Forall2 (λ c cell, commit_cell (Some "org1") PyNone c = Ok cell)
        Examples.collaborators cells
      ∧ Examples.tables =
          make_tables
            (table_headers
               (table_columns (Some "2024-01-01") (Some "2024-02-01") "true"))
            (group_rows ["org2"]
               (zip Examples.collaborators
                  (zip_with
                     (λ c cell,
                        leading_cells "true"
                          (is_range (Some "2024-01-01") (Some "2024-02-01")) c
                        +:+ " " +:+ sponsor_cell c +:+ " |"
                        +:+ " " +:+ cell +:+ " |" +:+ LF)
                     Examples.collaborators cells))
               []).
Proof.
  assert (Hrun :
    get_contributor_table Examples.collaborators (Some "2024-01-01")
      (Some "2024-02-01") (Some "org1") PyNone "true" "true" ["org2"]
    = Ok (Examples.tables, 13%Z)) by (vm_compute; reflexivity).
  exact (conj Hrun (sponsor_cell_in_rows _ _ _ _ _ _ _ _ _ Hrun)).
Defined.

(** ** The text of a commit link *)

(** C3: the text of a commit link is not always the [<org>/<repo>] part of
    the URL.  Line 205 cuts the URL at its first ["/commits"], also where
    that begins a name.  For the commit listing of the repository
    [commits-viewer] of [org1] the link reads [org1], not
    [org1/commits-viewer]; for the commit listing of a repository of the
    organization [commits-org] nothing of ["github.com/"] is left before
    the cut, and [IndexError] is raised. *)
Theorem link_text_cut_at_first_commits :
  ContributorStats.commit_url Examples.dora
  = "https://" +:+ "github.com/" +:+ "org1/commits-viewer" +:+ "/commits"
    +:+ "?author=dora"
  ∧ get_contributor_table [Examples.dora] None None (Some "org1") PyNone
      "false" "true" []
    = Ok ([("Independent",
            table_headers (table_columns None None "false")
            +:+ table_row "true" (table_columns None None "false")
                  Examples.dora
                  (render_link "org1"
                     "https://github.com/org1/commits-viewer/commits?author=dora"
                   +:+ ", "))], 4%Z)
  ∧ render_link "org1"
      "https://github.com/org1/commits-viewer/commits?author=dora"
    ≠ render_link "org1/commits-viewer"
        "https://github.com/org1/commits-viewer/commits?author=dora"
  ∧ ContributorStats.commit_url Examples.erin
    = "https://" +:+ "github.com/" +:+ "commits-org/repo1" +:+ "/commits"
      +:+ "?author=erin"
  ∧ get_contributor_table [Examples.erin] None None (Some "commits-org")
      PyNone "false" "true" [] = Raise IndexError.
Proof.
  split_and!.
  - reflexivity.
  - vm_compute. reflexivity.
  - vm_compute. discriminate.
  - reflexivity.
  - vm_compute. reflexivity.
Qed.

(** ** A commit URL that is not one *)

Section Malformed.

Lemma loop_body_linking organization link_to_profile show columns vars c :
  link_mode organization (Vars.repository vars) = true →
  loop_body organization link_to_profile show columns vars c =
    match link_commit_urls ""
            (PyStr.split "," (ContributorStats.commit_url c)) with
    | Raise e => Raise e
    | Ok linked =>
        Ok (Vars.mk
              (Vars.total_contributions vars
               + ContributorStats.contribution_count c)%Z
              (PyList (repository_as_list (Vars.repository vars)))
              (Some linked)
              (assign_row show (table_row link_to_profile columns c linked) c
                 (Vars.organization_contributors vars)))
    end.
Proof.
  intros Hmode. rewrite loop_body_good by (by left).
  unfold commit_cell. by rewrite Hmode.
Qed.

Lemma for_collaborators_malformed organization link_to_profile show columns
    cs c url :
  c ∈ cs →
  url ∈ PyStr.split "," (ContributorStats.commit_url c) →
  ¬ occurs "github.com/" url →
  ∀ vars,
    link_mode organization (Vars.repository vars) = true →
    for_collaborators organization link_to_profile show columns cs vars
    = Raise IndexError.
Proof.
  intros Hc Hurl Hno. induction cs as [|c' cs IH]; intros vars Hmode.
  { by apply elem_of_nil in Hc. }
  cbn [for_collaborators]. rewrite loop_body_linking by done.
  destruct (link_commit_urls "" _) as [linked | e] eqn:Hlinks.
  - cbn [bind]. apply elem_of_cons in Hc as [<- | Hc].
    + by rewrite (link_commit_urls_missing _ _ Hurl Hno) in Hlinks.
    + by apply IH.
  - cbn [bind]. by rewrite (link_commit_urls_raises _ _ _ Hlinks).
Qed.

End Malformed.

(** C8: when links are made (an organization is given or more than one
    repository is in scope) and one of the comma-separated pieces of some
    contributor's [commit_url] does not contain ["github.com/"],
    [get_contributor_table] raises [IndexError] and returns no table. *)
Theorem malformed_commit_url_raises cs start_date end_date organization
    repository sponsor_info link_to_profile show c url :
  truthy_str organization = true
  ∨ (1 < length (repository_as_list repository))%nat →
  c ∈ cs →
  url ∈ PyStr.split "," (ContributorStats.commit_url c) →
  PyStr.contains "github.com/" url = false →
  get_contributor_table cs start_date end_date organization repository
    sponsor_info link_to_profile show = Raise IndexError.
Proof.
  intros Hmode Hc Hurl Hno. unfold get_contributor_table.
  rewrite (for_collaborators_malformed _ _ _ _ cs c url); try done.
  - by apply contains_false_not_occurs.
  - unfold link_mode. cbn [Vars.repository].
    destruct Hmode as [-> | Hlen]; [done |].
    apply orb_true_iff. right. by apply Nat.ltb_lt.
Qed.

Lemma malformed_commit_url_raises_witness :
  (truthy_str (Some "org1") = true
   ∨ (1 < length (repository_as_list PyNone))%nat)
  ∧ Examples.mallory ∈ [Examples.alice; Examples.mallory]
  ∧ "https://example.org/x/y/commits"
    ∈ PyStr.split "," (ContributorStats.commit_url Examples.mallory)
  ∧ PyStr.contains "github.com/" "https://example.org/x/y/commits" = false
  ∧ get_contributor_table [Examples.alice; Examples.mallory] None None
      (Some "org1") PyNone "false" "true" ["all"] = Raise IndexError.
Proof.
  assert (Hmode : truthy_str (Some "org1") = true
                  ∨ (1 < length (repository_as_list PyNone))%nat)
    by (left; reflexivity).
  assert (Hc : Examples.mallory ∈ [Examples.alice; Examples.mallory])
    by (apply list_elem_of_further, list_elem_of_here).
  assert (Hurl : "https://example.org/x/y/commits"
                 ∈ PyStr.split "," (ContributorStats.commit_url Examples.mallory))
    by (vm_compute; apply list_elem_of_here).
  assert (Hno : PyStr.contains "github.com/" "https://example.org/x/y/commits"
                = false) by (vm_compute; reflexivity).
  exact (conj Hmode (conj Hc (conj Hurl (conj Hno
           (malformed_commit_url_raises _ None None _ _ "false" "true" ["all"]
              _ _ Hmode Hc Hurl Hno))))).
Defined.

(** ** The sections of the document *)

Section Sections.

Context `{PyRuntime}.

Implicit Types (table : Dict.t string) (org : string).

Lemma concat_app (l1 l2 : list string) :
  PyStr.concat (l1 ++ l2) = PyStr.concat l1 +:+ PyStr.concat l2.
Proof.
  induction l1 as [|s l1 IH]; [done |].
  cbn [app PyStr.concat]. by rewrite IH, str_app_assoc.
Qed.

Lemma write_orgs_spec table orgs :
  ∀ out,
    Forall (λ org, org ∈ Dict.keys table) orgs →
    write_orgs table out orgs
    = Ok (out +:+ PyStr.concat (section_text table <$> orgs)).
Proof.
  induction orgs as [|org orgs IH]; intros out Hin.
  - cbn. by rewrite str_app_nil_r.
  - apply Forall_cons in Hin as [Horg Hin].
    cbn [write_orgs]. destruct (get_is_ok _ _ Horg) as [text Htext].
    rewrite Htext. cbn [bind]. rewrite IH by done.
    rewrite fmap_cons. cbn [PyStr.concat]. unfold section_text at 2.
    rewrite Htext. by rewrite !str_app_assoc.
Qed.

Lemma filter_not_key org table :
  org ∉ Dict.keys table → filter (λ p, p.1 ≠ org) table = table.
Proof.
  unfold Dict.keys. induction table as [|[k v] table IH]; [done |].
  rewrite fmap_cons. cbn [fst]. intros [Hne Hin]%not_elem_of_cons.
  rewrite filter_cons_True by (cbn; congruence). by rewrite IH.
Qed.

(** With unique keys, removing the first ["Independent"] removes it. *)
Lemma list_remove_keys org table :
  NoDup (Dict.keys table) →
  Dict.list_remove org (Dict.keys table)
  = Dict.keys (filter (λ p, p.1 ≠ org) table).
Proof.
  unfold Dict.keys. induction table as [|[k v] table IH]; [done |].
  rewrite fmap_cons. cbn [fst]. intros [Hk Hnd]%NoDup_cons.
  cbn [Dict.list_remove]. destruct (decide (k = org)) as [-> | Hne].
  - rewrite bool_decide_eq_true_2 by done.
    rewrite filter_cons_False by (cbn; tauto).
    by rewrite filter_not_key.
  - rewrite bool_decide_eq_false_2 by done.
    rewrite filter_cons_True by done. rewrite fmap_cons. cbn [fst].
    by rewrite IH.
Qed.

Lemma get_of_pair table k v :
  NoDup (Dict.keys table) → (k, v) ∈ table → Dict.get k table = Ok v.
Proof.
  unfold Dict.keys. induction table as [|[k' v'] table IH]; intros Hnd Hin.
  { by apply elem_of_nil in Hin. }
  rewrite fmap_cons in Hnd. cbn [fst] in Hnd.
  apply NoDup_cons in Hnd as [Hk Hnd]. cbn [Dict.get].
  apply elem_of_cons in Hin as [[= <- <-] | Hin].
  - by rewrite bool_decide_eq_true_2.
  - rewrite bool_decide_eq_false_2; [by apply IH |].
    intros ->. apply Hk. apply list_elem_of_fmap. by exists (k, v).
Qed.

Lemma section_texts_of_pairs table (pairs : list (string * string)) :
  NoDup (Dict.keys table) →
  Forall (λ p, p ∈ table ∧ p.1 ≠ "Independent") pairs →
  section_text table <$> pairs.*1
  = (λ p, linked_heading p.1 +:+ p.2) <$> pairs.
Proof.
  intros Hnd. induction 1 as [|[k v] pairs [Hin Hne] _ IH]; [done |].
  rewrite !fmap_cons, IH. f_equal. cbn [fst snd] in *.
  unfold section_text, org_title, linked_heading.
  rewrite (get_of_pair _ _ _ Hnd Hin).
  by apply String.eqb_neq in Hne as ->.
Qed.

Lemma organization_sections_spec table :
  NoDup (Dict.keys table) →
  PyStr.concat
    (section_text table
       <$> Dict.keys (filter (λ p, p.1 ≠ "Independent") table))
  = organization_sections table.
Proof.
  intros Hnd. unfold organization_sections, Dict.keys.
  rewrite section_texts_of_pairs; [done | done |].
  apply Forall_forall. by intros p [? ?]%list_elem_of_filter.
Qed.

Lemma keys_filter_subset table (P : string * string → Prop)
    `{∀ p, Decision (P p)} :
  Forall (λ org, org ∈ Dict.keys table) (Dict.keys (filter P table)).
Proof.
  apply Forall_forall. intros org [p [-> Hp]]%list_elem_of_fmap.
  apply list_elem_of_filter in Hp as [_ Hp].
  apply list_elem_of_fmap. by exists p.
Qed.

(** The text that [markdown_text] assembles. *)
Lemma markdown_text_spec start_date end_date organization repository table
    summary_table :
  NoDup (Dict.keys table) →
  markdown_text start_date end_date organization repository table
    summary_table
  = Ok (markdown_head start_date end_date organization repository
        +:+ summary_table
        +:+ sections ("## Independent " +:+ LF) table
        +:+ footer).
Proof.
  intros Hnd. unfold markdown_text, sections.
  set (out := markdown_head _ _ _ _ +:+ summary_table).
  destruct (decide ("Independent" ∈ Dict.keys table)) as [Hin | Hin].
  - destruct (get_is_ok _ _ Hin) as [text Htext]. rewrite Htext.
    unfold Dict.mem. rewrite (bool_decide_eq_true_2 _ Hin), andb_true_r.
    destruct (decide (length table = 1)) as [Hlen | Hlen].
    + rewrite (proj2 (Nat.eqb_eq _ _) Hlen), bool_decide_eq_true_2 by done.
      cbn [bind]. unfold out. by rewrite !str_app_assoc.
    + rewrite (proj2 (Nat.eqb_neq _ _) Hlen), bool_decide_eq_false_2 by done.
      rewrite list_remove_keys by done.
      rewrite write_orgs_spec.
      * cbn [bind]. rewrite fmap_app, concat_app.
        rewrite organization_sections_spec by done.
        cbn [fmap list_fmap PyStr.concat]. unfold section_text.
        rewrite Htext. unfold out, org_title.
        rewrite String.eqb_refl. cbn [negb].
        by rewrite !str_app_assoc, ?str_app_nil_r.
      * apply Forall_app. split; [apply keys_filter_subset |].
        by apply Forall_singleton.
  - rewrite (get_not_in _ _ Hin). unfold Dict.mem.
    rewrite (bool_decide_eq_false_2 _ Hin), andb_false_r.
    rewrite write_orgs_spec.
    + cbn [bind]. rewrite <- organization_sections_spec by done.
      rewrite (filter_not_key "Independent" table) by done.
      unfold out. by rewrite !str_app_assoc.
    + apply Forall_forall. by intros org Horg.
Qed.

End Sections.

(** C5: the document that [write_markdown_file] writes is the head, the
    summary table, the sections and the footer.  When ["Independent"] is the
    only group, the sections are its table alone, without a heading.
    Otherwise every other group has, in the order of the dictionary, a level-2
    heading that links to [https://github.com/<org>] followed by its table,
    and ["Independent"], when present, comes last under the plain heading
    line [## Independent ], which ends with a space. *)
Theorem independent_section_last `{PyRuntime} fs filename start_date end_date
    organization repository (table : Dict.t string) summary_table :
  NoDup (Dict.keys table) →
  write_markdown_file fs filename start_date end_date organization repository
    table summary_table
  = Ok (<[filename :=
            markdown_head start_date end_date organization repository
            +:+ summary_table
            +:+ sections ("## Independent " +:+ LF) table
            +:+ footer]> fs).
Proof.
  intros Hnd. unfold write_markdown_file.
  by rewrite markdown_text_spec.
Qed.

Lemma independent_section_last_witness :
  NoDup (Dict.keys [("org1", "T1"); ("Independent", "T2"); ("org2", "T3")])
  ∧ write_markdown_file (H := Examples.runtime) ∅ "contributors.md" None None
      None (PyStr "org1/repo1")
      [("org1", "T1"); ("Independent", "T2"); ("org2", "T3")] "S"
    = Ok (<["contributors.md" :=
              markdown_head (H := Examples.runtime) None None None
                (PyStr "org1/repo1")
              +:+ "S"
              +:+ sections ("## Independent " +:+ LF)
                    [("org1", "T1"); ("Independent", "T2"); ("org2", "T3")]
              +:+ footer]> ∅).
Proof.
  assert (Hnd :
    NoDup (Dict.keys [("org1", "T1"); ("Independent", "T2"); ("org2", "T3")]))
    by (apply (bool_decide_unpack _); vm_compute; exact I).
  exact (conj Hnd (independent_section_last (H := Examples.runtime) _ _ _ _ _
                     _ _ _ Hnd)).
Defined.

(** The heading line of ["Independent"] is not [## Independent] followed
    directly by the line feed: with a second group, the document differs
    from the one with that heading. *)
Lemma independent_heading_not_exact :
  write_markdown_file (H := Examples.runtime) ∅ "contributors.md" None None
    None (PyStr "org1/repo1") [("org1", "T1"); ("Independent", "T2")] "S"
  ≠ Ok (<["contributors.md" :=
            markdown_head (H := Examples.runtime) None None None
              (PyStr "org1/repo1")
            +:+ "S"
            +:+ sections ("## Independent" +:+ LF)
                  [("org1", "T1"); ("Independent", "T2")]
            +:+ footer]> ∅).
Proof.
  unfold write_markdown_file. rewrite markdown_text_spec.
  - cbn [bind]. intros Heq.
    apply (f_equal (λ r : result (gmap string string),
                      match r with
                      | Ok fs => fs !! "contributors.md"
                      | Raise _ => None
                      end)) in Heq.
    rewrite !lookup_insert_eq in Heq.
    vm_compute in Heq. discriminate Heq.
  - apply (bool_decide_unpack _). vm_compute. exact I.
Qed.

(** ** The empty list *)

(** C6: for the empty list nothing is raised.  [get_contributor_table]
    returns no group at all and the total 0; the summary row reads 0
    contributors, 0 contributions and, in range mode, 0%; and the document is
    the head, the summary table and the footer, with no group table and so no
    table header between them. *)
Theorem empty_list_report `{PyRuntime} fs filename start_date end_date
    organization repository sponsor_info link_to_profile show :
  get_contributor_table [] start_date end_date organization repository
    sponsor_info link_to_profile show = Ok ([], 0%Z)
  ∧ get_summary_table [] start_date end_date 0
    = (if is_range start_date end_date
       then "| Total Contributors | Total Contributions | % New Contributors |"
            +:+ LF +:+ "| --- | --- | --- |" +:+ LF
            +:+ "| 0 | 0 | 0% |" +:+ LF +:+ LF
       else "| Total Contributors | Total Contributions |" +:+ LF
            +:+ "| --- | --- |" +:+ LF
            +:+ "| 0 | 0 |" +:+ LF +:+ LF)
  ∧ write_to_markdown fs [] filename start_date end_date organization
      repository sponsor_info link_to_profile show
    = Ok (<[filename :=
              markdown_head start_date end_date organization repository
              +:+ get_summary_table [] start_date end_date 0
              +:+ footer]> fs).
Proof.
  split_and!.
  - done.
  - unfold get_summary_table, is_range.
    by destruct (truthy_str start_date && truthy_str end_date).
  - unfold write_to_markdown, write_markdown_file, get_contributor_table.
    cbn [for_collaborators bind Vars.organization_contributors
         Vars.total_contributions make_tables fmap list_fmap].
    by rewrite markdown_text_spec by constructor.
Qed.

(** For the empty list the document holds no table header: no group table
    is rendered, not even one with zero rows. *)
Lemma empty_list_has_no_table :
  ¬ (∃ fs doc,
       write_to_markdown (H := Examples.runtime) ∅ [] "contributors.md" None
         None (Some "org1") PyNone "false" "true" ["all"] = Ok fs
       ∧ fs !! "contributors.md" = Some doc
       ∧ PyStr.contains (table_headers (table_columns None None "false")) doc
         = true).
Proof.
  intros (fs & doc & Hrun & Hdoc & Hheaders).
  unfold write_to_markdown, write_markdown_file, get_contributor_table in Hrun.
  cbn [for_collaborators bind Vars.organization_contributors
       Vars.total_contributions make_tables fmap list_fmap] in Hrun.
  rewrite markdown_text_spec in Hrun by constructor.
  cbn [bind] in Hrun. injection Hrun as <-.
  rewrite lookup_insert_eq in Hdoc. injection Hdoc as <-.
  vm_compute in Hheaders. discriminate Hheaders.
Qed.

(** ** Running the report twice *)

(** C9: what [write_to_markdown] writes depends on its arguments only, not
    on what the file system held: the file gets the text [report_text]
    computes from them, or the call raises as that computation does.  Running
    it a second time with the same arguments, on the file system the first
    run left, changes nothing. *)
Theorem write_to_markdown_repeatable `{PyRuntime} cs filename start_date
    end_date organization repository sponsor_info link_to_profile show :
  (∀ fs,
     write_to_markdown fs cs filename start_date end_date organization
       repository sponsor_info link_to_profile show
     = (text ←! report_text cs start_date end_date organization repository
                  sponsor_info link_to_profile show;
        Ok (<[filename := text]> fs)))
  ∧ (∀ fs,
       (fs' ←! write_to_markdown fs cs filename start_date end_date
                 organization repository sponsor_info link_to_profile show;
        write_to_markdown fs' cs filename start_date end_date organization
          repository sponsor_info link_to_profile show)
       = write_to_markdown fs cs filename start_date end_date organization
           repository sponsor_info link_to_profile show).
Proof.
  assert (Hrun : ∀ fs,
    write_to_markdown fs cs filename start_date end_date organization
      repository sponsor_info link_to_profile show
    = (text ←! report_text cs start_date end_date organization repository
                 sponsor_info link_to_profile show;
       Ok (<[filename := text]> fs))).
  { intros fs. unfold write_to_markdown, report_text, write_markdown_file.
    destruct (get_contributor_table _ _ _ _ _ _ _ _) as [[table total] |];
      done. }
  split; [done |]. intros fs. rewrite !Hrun.
  destruct (report_text _ _ _ _ _ _ _ _) as [text |]; [| done].
  cbn [bind]. rewrite Hrun. cbn [bind]. by rewrite insert_insert_eq.
Qed.

(** * Further properties of the table builder *)

(** ** Rows and header have the same cells *)

Section TableShape.

#[local] Arguments String.append !_ _ / : simpl nomatch.

Lemma join_as_line x (l : list string) :
  " " +:+ PyStr.join " | " (x :: l) +:+ " |"
  = PyStr.concat ((λ cell, " " +:+ cell +:+ " |") <$> (x :: l)).
Proof.
  revert x. induction l as [|y l IH]; intros x.
  - cbn [PyStr.join fmap list_fmap PyStr.concat].
    by rewrite !str_app_assoc, str_app_nil_r.
  - change (PyStr.join " | " (x :: y :: l))
      with (x +:+ " | " +:+ PyStr.join " | " (y :: l)).
    rewrite fmap_cons. cbn [PyStr.concat]. rewrite <- IH.
    by rewrite !str_app_assoc.
Qed.

Lemma table_headers_as_lines (columns : list string) :
  columns ≠ [] →
  table_headers columns
  = table_line columns +:+ table_line (replicate (length columns) "---").
Proof.
  destruct columns as [|x l]; [done |]. intros _.
  unfold table_headers, table_line.
  cbn [length replicate]. rewrite <- !join_as_line.
  by rewrite !str_app_assoc.
Qed.

Lemma table_columns_length start_date end_date sponsor_info :
  length (table_columns start_date end_date sponsor_info)
  = 3 + (if is_range start_date end_date then 1 else 0)
    + (if String.eqb sponsor_info "true" then 1 else 0).
Proof.
  unfold table_columns, is_range.
  by destruct (truthy_str start_date && truthy_str end_date),
       (String.eqb sponsor_info "true").
Qed.

Lemma table_row_as_line start_date end_date sponsor_info link_to_profile c
    cell :
  table_row link_to_profile (table_columns start_date end_date sponsor_info)
    c cell
  = table_line
      (row_cells link_to_profile (is_range start_date end_date)
         (String.eqb sponsor_info "true") c cell).
Proof.
  unfold table_row, row_start, table_line, row_cells, sponsor_cell.
  rewrite new_contributor_column, sponsor_column.
  destruct (is_range start_date end_date),
    (String.eqb sponsor_info "true"),
    (String.eqb (ContributorStats.sponsor_info c) "");
    cbn [app fmap list_fmap PyStr.concat];
    by rewrite !str_app_assoc, ?str_app_nil_r.
Qed.

End TableShape.

(** X1: in every table that [get_contributor_table] returns, the header, the
    separator and the rows are lines of the same number of cells.  The cells
    of a row are the user name, with [@] in front unless [link_to_profile] is
    ["false"], the count, in range mode [True] or [False] for the new
    contributor, with the sponsor column the sponsor cell, and the commit
    cell. *)
Theorem rows_match_header cs start_date end_date organization repository
    sponsor_info link_to_profile show tables total :
  get_contributor_table cs start_date end_date organization repository
    sponsor_info link_to_profile show = Ok (tables, total) →
  let columns := table_columns start_date end_date sponsor_info in
  let range := is_range start_date end_date in
  let sponsor := String.eqb sponsor_info "true" in
  ∃ cells,
    Forall2 (λ c cell, commit_cell organization repository c = Ok cell)
      cs cells
    ∧ tables =
        make_tables
          (table_line columns
           +:+ table_line (replicate (length columns) "---"))
          (group_rows show
             (zip cs
                (zip_with
                   (λ c cell,
                      table_line (row_cells link_to_profile range sponsor c cell))
                   cs cells))
             [])
    ∧ ∀ c cell,
        length (row_cells link_to_profile range sponsor c cell)
        = length columns.
Proof.
  intros Hrun columns range sponsor.
  destruct (get_contributor_table_ok _ _ _ _ _ _ _ _ _ _ Hrun)
    as (rows & Hrows & _ & ->).
  apply rows_as_cells in Hrows as (cells & Hcells & ->).
  exists cells. split_and!; [done | |].
  - rewrite table_headers_as_lines.
    + do 3 f_equal. apply zip_with_ext; [| done | done].
      intros c cell. apply table_row_as_line.
    + intros Hnil. apply (f_equal length) in Hnil.
      rewrite table_columns_length in Hnil. simpl in Hnil. lia.
  - intros c cell. unfold columns. rewrite table_columns_length.
    unfold row_cells, range, sponsor. rewrite !length_app.
    by destruct (is_range start_date end_date),
         (String.eqb sponsor_info "true").
Qed.

Lemma rows_match_header_witness :
  get_contributor_table Examples.collaborators (Some "2024-01-01")
    (Some "2024-02-01") (Some "org1") PyNone "true" "true" ["org2"]
  = Ok (Examples.tables, 13%Z)
  ∧ ∃ cells,
      Forall2 (λ c cell, commit_cell (Some "org1") PyNone c = Ok cell)
        Examples.collaborators cells
      ∧ Examples.tables =
          make_tables
            (table_line
               (table_columns (Some "2024-01-01") (Some "2024-02-01") "true")
             +:+ table_line
                   (replicate
                      (length
                         (table_columns (Some "2024-01-01")
                            (Some "2024-02-01") "true"))
                      "---"))
            (group_rows ["org2"]
               (zip Examples.collaborators
                  (zip_with
                     (λ c cell,
                        table_line
                          (row_cells "true"
                             (is_range (Some "2024-01-01") (Some "2024-02-01"))
                             (String.eqb "true" "true") c cell))
                     Examples.collaborators cells))
               [])
      ∧ ∀ c cell,
          length
            (row_cells "true"
               (is_range (Some "2024-01-01") (Some "2024-02-01"))
               (String.eqb "true" "true") c cell)
          = length
              (table_columns (Some "2024-01-01") (Some "2024-02-01") "true").
Proof.
  assert (Hrun :
    get_contributor_table Examples.collaborators (Some "2024-01-01")
      (Some "2024-02-01") (Some "org1") PyNone "true" "true" ["org2"]
    = Ok (Examples.tables, 13%Z)) by (vm_compute; reflexivity).
  exact (conj Hrun (rows_match_header _ _ _ _ _ _ _ _ _ _ Hrun)).
Defined.

(** ** The order of the groups and the number of rows *)

Section GroupOrder.

Implicit Types (show : list string) (oc : Dict.t (list string)).

Lemma zip_fst_same_length {A B} (l : list A) (k : list B) :
  length l = length k → (zip l k).*1 = l.
Proof.
  revert k. induction l as [|x l IH]; intros [|y k] Hlen; try done.
  cbn [zip zip_with]. rewrite fmap_cons. cbn [fst].
  f_equal. apply IH. by injection Hlen.
Qed.

Lemma filter_not_in_snoc (keys l : list string) g :
  filter (λ y, y ∉ keys ++ [g]) l
  = filter (λ y, y ∉ keys) (filter (λ y, y ≠ g) l).
Proof.
  induction l as [|y l IH]; [done |].
  rewrite (filter_cons (λ y, y ≠ g)).
  destruct (decide (y = g)) as [-> | Hne].
  - rewrite decide_False by (intros Hg; by apply Hg).
    rewrite filter_cons_False; [done |].
    intros Hnot. apply Hnot. apply elem_of_app. right.
    apply list_elem_of_here.
  - rewrite decide_True by done. rewrite !filter_cons.
    destruct (decide (y ∈ keys)) as [Hin | Hin].
    + rewrite decide_False by (intros Hnot; apply Hnot, elem_of_app; by left).
      by rewrite decide_False by (intros Hnot; by apply Hnot).
    + rewrite decide_True.
      * rewrite decide_True by done. by rewrite IH.
      * intros [Hy | Hy%list_elem_of_singleton]%elem_of_app; done.
Qed.

Lemma filter_not_in_key (keys l : list string) g :
  g ∈ keys →
  filter (λ y, y ∉ keys) (filter (λ y, y ≠ g) l) = filter (λ y, y ∉ keys) l.
Proof.
  intros Hg. induction l as [|y l IH]; [done |].
  rewrite (filter_cons (λ y, y ≠ g)).
  destruct (decide (y = g)) as [-> | Hne].
  - rewrite decide_False by (intros Hne; by apply Hne).
    rewrite (filter_cons_False _ g l) by (intros Hnot; by apply Hnot).
    done.
  - rewrite decide_True by done. rewrite !filter_cons. by rewrite IH.
Qed.

(** The keys after filing rows: the keys before, then the new groups in the
    order in which each comes first. *)
Lemma keys_group_rows show rows :
  ∀ oc,
    Dict.keys (group_rows show rows oc)
    = Dict.keys oc
      ++ filter (λ g, g ∉ Dict.keys oc)
           (first_occurrences (group_of show <$> rows.*1)).
Proof.
  induction rows as [|p rows IH]; intros oc.
  - cbn. by rewrite app_nil_r.
  - rewrite group_rows_cons, IH, keys_append_to.
    rewrite !fmap_cons. cbn [first_occurrences].
    destruct (decide (group_of show p.1 ∈ Dict.keys oc)) as [Hin | Hin].
    + rewrite bool_decide_eq_true_2 by done.
      rewrite filter_cons_False by (intros Hnot; by apply Hnot).
      by rewrite filter_not_in_key.
    + rewrite bool_decide_eq_false_2 by done.
      rewrite filter_cons_True by done.
      rewrite filter_not_in_snoc. by rewrite <- app_assoc.
Qed.

Lemma filter_True_all (l : list string) :
  filter (λ g, g ∉ @nil string) l = l.
Proof.
  induction l as [|x l IH]; [done |].
  rewrite filter_cons_True by apply not_elem_of_nil. by rewrite IH.
Qed.




End GroupOrder.

(** X2: the groups of the returned dictionary are in the order in which the
    first contributor of each comes in the input, which is the order the
    document lists them in before ["Independent"] is moved to the end. *)
Theorem groups_in_order_of_first_contributor cs start_date end_date
    organization repository sponsor_info link_to_profile show tables total :
  get_contributor_table cs start_date end_date organization repository
    sponsor_info link_to_profile show = Ok (tables, total) →
  Dict.keys tables = first_occurrences (group_of show <$> cs).
Proof.
  intros Hrun.
  destruct (get_contributor_table_ok _ _ _ _ _ _ _ _ _ _ Hrun)
    as (rows & Hrows & _ & ->).
  rewrite keys_make_tables, keys_group_rows.
  rewrite zip_fst_same_length by (by eapply Forall2_length).
  cbn [Dict.keys fmap list_fmap app]. apply filter_True_all.
Qed.

Lemma groups_in_order_of_first_contributor_witness :
  get_contributor_table Examples.collaborators None None None
    (PyStr "org1/repo1") "false" "true" ["all"]
  = Ok ([("org1",
          table_headers (table_columns None None "false")
          +:+ table_row "true" (table_columns None None "false") Examples.alice
                (ContributorStats.commit_url Examples.alice));
         ("Independent",
          table_headers (table_columns None None "false")
          +:+ table_row "true" (table_columns None None "false") Examples.bob
                (ContributorStats.commit_url Examples.bob));
         ("org3",
          table_headers (table_columns None None "false")
          +:+ table_row "true" (table_columns None None "false") Examples.carol
                (ContributorStats.commit_url Examples.carol))], 13%Z)
  ∧ ["org1"; "Independent"; "org3"]
    = first_occurrences (group_of ["all"] <$> Examples.collaborators).
Proof.
  assert (Hrun :
    get_contributor_table Examples.collaborators None None None
      (PyStr "org1/repo1") "false" "true" ["all"]
    = Ok ([("org1",
            table_headers (table_columns None None "false")
            +:+ table_row "true" (table_columns None None "false")
                  Examples.alice
                  (ContributorStats.commit_url Examples.alice));
           ("Independent",
            table_headers (table_columns None None "false")
            +:+ table_row "true" (table_columns None None "false")
                  Examples.bob (ContributorStats.commit_url Examples.bob));
           ("org3",
            table_headers (table_columns None None "false")
            +:+ table_row "true" (table_columns None None "false")
                  Examples.carol
                  (ContributorStats.commit_url Examples.carol))], 13%Z))
    by (vm_compute; reflexivity).
  exact (conj Hrun
           (groups_in_order_of_first_contributor _ _ _ _ _ _ _ _ _ _ Hrun)).
Defined.




(** ** When the table builder raises *)

Section Failures.

#[local] Arguments String.append !_ _ / : simpl nomatch.

(** An occurrence has a first one. *)
Lemma first_occurrence sep s :
  occurs sep s → ∃ p r, s = p +:+ sep +:+ r ∧ first_match sep p.
Proof.
  induction s as [|a s IH]; intros (pre & post & Heq).
  - symmetry in Heq. apply str_app_eq_nil in Heq as [-> Heq].
    apply str_app_eq_nil in Heq as [-> ->].
    exists "", "". split; [done |]. intros q r Hq.
    symmetry in Hq. by apply str_app_eq_nil in Hq as [-> _].
  - destruct (String.prefix sep (String a s)) eqn:Hp.
    + apply prefix_inv in Hp as [r Hr]. exists "", r. split; [done |].
      intros q t Hq. apply (f_equal String.length) in Hq.
      rewrite !str_app_length in Hq. simpl in Hq.
      destruct q; [done | simpl in Hq; lia].
    + destruct pre as [|b pre]; simpl in Heq.
      { rewrite Heq, prefix_app in Hp. done. }
      injection Heq as <- Heq.
      destruct IH as (p & r & -> & Hfirst); [by exists pre, post |].
      exists (String a p), r. split; [done |].
      intros q t Hq. destruct q as [|c q].
      * exfalso. change ("" +:+ sep +:+ t) with (sep +:+ t) in Hq.
        change (String a (p +:+ sep +:+ r))
          with (String a p +:+ sep +:+ r) in Hp.
        rewrite <- str_app_assoc, Hq, str_app_assoc, prefix_app in Hp. done.
      * simpl in Hq. injection Hq as -> Hq. f_equal. by apply (Hfirst q t).
Qed.

(** With an occurrence of the separator there is a second piece. *)
Lemma split_occurs sep s :
  sep ≠ "" → occurs sep s → ∃ piece, PyStr.split sep s !! 1 = Some piece.
Proof.
  intros Hsep (p & r & -> & Hfirst)%first_occurrence.
  rewrite split_first_match by done.
  destruct (split_head sep r) as (q & qs & ->). by exists q.
Qed.

(** A link name is found exactly when ["github.com/"] occurs before the
    first ["/commits"]. *)
Lemma org_repo_link_name_fails url :
  org_repo_link_name url = Raise IndexError
  ↔ ¬ occurs "github.com/" (before_commits url).
Proof.
  unfold org_repo_link_name, before_commits.
  destruct (split_head "/commits" url) as (p & ps & ->).
  cbn [lookup list_lookup head default from_option id]. split.
  - intros Hraise Hocc. apply split_occurs in Hocc as [piece Hpiece]; [| done].
    by rewrite Hpiece in Hraise.
  - intros Hno. by rewrite split_not_occurs.
Qed.

Lemma link_commit_urls_raise_inv urls :
  ∀ acc e,
    link_commit_urls acc urls = Raise e →
    ∃ url, url ∈ urls
           ∧ org_repo_link_name (PyStr.strip url) = Raise IndexError.
Proof.
  induction urls as [|url urls IH]; intros acc e Hrun; [done |].
  cbn [link_commit_urls] in Hrun.
  destruct (org_repo_link_name (PyStr.strip url)) as [name | e'] eqn:Hname.
  - cbn [bind] in Hrun. apply IH in Hrun as (u & Hu & Hraise).
    exists u. split; [by apply list_elem_of_further | done].
  - exists url. split; [apply list_elem_of_here |].
    by rewrite (org_repo_link_name_raises _ _ Hname) in Hname.
Qed.

Lemma link_commit_urls_fails urls url :
  url ∈ urls →
  org_repo_link_name (PyStr.strip url) = Raise IndexError →
  ∀ acc, link_commit_urls acc urls = Raise IndexError.
Proof.
  intros Hin Hraise. induction urls as [|url' urls IH]; intros acc.
  { by apply elem_of_nil in Hin. }
  cbn [link_commit_urls].
  destruct (org_repo_link_name (PyStr.strip url')) as [name | e] eqn:Hname.
  - cbn [bind]. apply elem_of_cons in Hin as [-> | Hin]; [| by apply IH].
    congruence.
  - cbn [bind]. by rewrite (org_repo_link_name_raises _ _ Hname).
Qed.

(** The making of a commit cell raises only when links are made, and then
    for a piece without link name. *)
Lemma commit_cell_raises organization repository c e :
  commit_cell organization repository c = Raise e →
  e = IndexError
  ∧ link_mode organization repository = true
  ∧ ∃ url, url ∈ PyStr.split "," (ContributorStats.commit_url c)
           ∧ org_repo_link_name (PyStr.strip url) = Raise IndexError.
Proof.
  unfold commit_cell.
  destruct (link_mode organization repository); [| done].
  intros Hraise. split_and!; [| done |].
  - by eapply link_commit_urls_raises.
  - by eapply link_commit_urls_raise_inv.
Qed.

Lemma for_collaborators_raises organization link_to_profile show columns cs :
  ∀ vars e,
    link_mode organization (Vars.repository vars) = true
    ∨ truthy (Vars.repository vars) = true →
    for_collaborators organization link_to_profile show columns cs vars
    = Raise e →
    ∃ c, c ∈ cs
         ∧ commit_cell organization (Vars.repository vars) c = Raise e.
Proof.
  induction cs as [|c cs IH]; intros vars e Hgood Hrun; [done |].
  cbn [for_collaborators] in Hrun. rewrite loop_body_good in Hrun by done.
  destruct (commit_cell organization (Vars.repository vars) c)
    as [cell | e'] eqn:Hcell.
  - cbn [bind] in Hrun. apply IH in Hrun as (c' & Hc' & Hraise);
      [| by apply good_as_list].
    exists c'. split; [by apply list_elem_of_further | done].
  - cbn [bind] in Hrun. injection Hrun as ->.
    exists c. split; [apply list_elem_of_here | done].
Qed.

Lemma for_collaborators_fails organization link_to_profile show columns cs c :
  c ∈ cs →
  ∀ vars,
    link_mode organization (Vars.repository vars) = true →
    commit_cell organization (Vars.repository vars) c = Raise IndexError →
    for_collaborators organization link_to_profile show columns cs vars
    = Raise IndexError.
Proof.
  intros Hc. induction cs as [|c' cs IH]; intros vars Hmode Hraise.
  { by apply elem_of_nil in Hc. }
  cbn [for_collaborators]. rewrite loop_body_good by (by left).
  destruct (commit_cell organization (Vars.repository vars) c')
    as [cell | e] eqn:Hcell.
  - cbn [bind]. apply elem_of_cons in Hc as [-> | Hc]; [congruence |].
    by apply IH.
  - cbn [bind]. by apply commit_cell_raises in Hcell as [-> _].
Qed.

End Failures.

(** X3: [get_contributor_table] raises [UnboundLocalError] in one
    configuration only: there is a contributor, and both [organization] and
    [repository] are falsy. *)
Theorem unbound_local_error_iff cs start_date end_date organization repository
    sponsor_info link_to_profile show :
  get_contributor_table cs start_date end_date organization repository
    sponsor_info link_to_profile show = Raise UnboundLocalError
  ↔ cs ≠ [] ∧ truthy_str organization = false ∧ truthy repository = false.
Proof.
  unfold get_contributor_table. split.
  - intros Hrun.
    destruct (for_collaborators _ _ _ _ _ _) as [vars' | e] eqn:Hloop;
      [done |]. cbn [bind] in Hrun. injection Hrun as ->.
    destruct cs as [|c cs]; [done |]. split; [done |].
    destruct (link_mode organization repository) eqn:Hmode.
    + apply for_collaborators_raises in Hloop as (c' & _ & Hraise);
        [| by left].
      by apply commit_cell_raises in Hraise as [? _].
    + destruct (truthy repository) eqn:Hrepo.
      * apply for_collaborators_raises in Hloop as (c' & _ & Hraise);
          [| by right].
        by apply commit_cell_raises in Hraise as [? _].
      * split; [| done]. by eapply link_mode_false_inv.
  - intros (Hcs & Horg & Hrepo). destruct cs as [|c cs]; [done |].
    cbn [for_collaborators]. by rewrite loop_body_unbound.
Qed.

(** X4: [get_contributor_table] raises [IndexError] exactly when links are
    made (an organization is given or more than one repository is in scope)
    and, in some piece of some contributor's [commit_url], stripped, no
    ["github.com/"] occurs before the first ["/commits"]. *)
Theorem index_error_iff cs start_date end_date organization repository
    sponsor_info link_to_profile show :
  get_contributor_table cs start_date end_date organization repository
    sponsor_info link_to_profile show = Raise IndexError
  ↔ (truthy_str organization = true
     ∨ (1 < length (repository_as_list repository))%nat)
    ∧ ∃ c url,
        c ∈ cs
        ∧ url ∈ PyStr.split "," (ContributorStats.commit_url c)
        ∧ ¬ occurs "github.com/" (before_commits (PyStr.strip url)).
Proof.
  assert (Hmode_iff :
    link_mode organization repository = true
    ↔ truthy_str organization = true
      ∨ (1 < length (repository_as_list repository))%nat).
  { unfold link_mode. rewrite orb_true_iff, Nat.ltb_lt. done. }
  unfold get_contributor_table. split.
  - intros Hrun.
    destruct (for_collaborators _ _ _ _ _ _) as [vars' | e] eqn:Hloop;
      [done |]. cbn [bind] in Hrun. injection Hrun as ->.
    destruct cs as [|c cs]; [done |].
    assert (Hgood : link_mode organization repository = true
                    ∨ truthy repository = true).
    { destruct (link_mode organization repository) eqn:Hmode; [by left |].
      destruct (truthy repository) eqn:Hrepo; [by right |].
      cbn [for_collaborators] in Hloop.
      rewrite loop_body_unbound in Hloop; try done.
      by eapply link_mode_false_inv. }
    apply for_collaborators_raises in Hloop as (c' & Hc' & Hraise);
      [| done].
    apply commit_cell_raises in Hraise as (_ & Hmode & url & Hurl & Hname).
    split; [by apply Hmode_iff |].
    exists c', url. split_and!; [done | done |].
    by apply org_repo_link_name_fails.
  - intros (Hmode%Hmode_iff & c & url & Hc & Hurl & Hno).
    rewrite (for_collaborators_fails _ _ _ _ cs c); try done.
    unfold commit_cell. cbn [Vars.repository]. rewrite Hmode.
    apply (link_commit_urls_fails _ url); [done |].
    by apply org_repo_link_name_fails.
Qed.

(** X5: without an organization, with at most one repository in scope and a
    truthy [repository], [get_contributor_table] returns for every list,
    whatever the commit URLs are, and its total is the sum of the counts. *)
Theorem raw_mode_returns cs start_date end_date organization repository
    sponsor_info link_to_profile show :
  truthy_str organization = false →
  (length (repository_as_list repository) ≤ 1)%nat →
  truthy repository = true →
  ∃ tables,
    get_contributor_table cs start_date end_date organization repository
      sponsor_info link_to_profile show = Ok (tables, sum_contributions cs).
Proof.
  intros Horg Hlen Hrepo. apply get_contributor_table_returns; [by right |].
  apply Forall_forall. intros c _. unfold commit_cell, link_mode.
  rewrite Horg. cbn [orb].
  rewrite (proj2 (Nat.ltb_ge _ _) Hlen). by eexists.
Qed.

Lemma raw_mode_returns_witness :
  truthy_str None = false
  ∧ (length (repository_as_list (PyList [PyNone])) ≤ 1)%nat
  ∧ truthy (PyList [PyNone]) = true
  ∧ ∃ tables,
      get_contributor_table [Examples.mallory; Examples.bob] None None None
        (PyList [PyNone]) "false" "true" ["all"]
      = Ok (tables, sum_contributions [Examples.mallory; Examples.bob]).
Proof.
  assert (Horg : truthy_str None = false) by reflexivity.
  assert (Hlen : (length (repository_as_list (PyList [PyNone])) ≤ 1)%nat)
    by (simpl; lia).
  assert (Hrepo : truthy (PyList [PyNone]) = true) by reflexivity.
  exact (conj Horg (conj Hlen (conj Hrepo
           (raw_mode_returns [Examples.mallory; Examples.bob] None None None
              (PyList [PyNone]) "false" "true" ["all"] Horg Hlen Hrepo)))).
Defined.

(** * Further properties of the whole report *)

Section WholeReport.

Context `{PyRuntime}.

Lemma tables_keys_NoDup cs start_date end_date organization repository
    sponsor_info link_to_profile show tables total :
  get_contributor_table cs start_date end_date organization repository
    sponsor_info link_to_profile show = Ok (tables, total) →
  NoDup (Dict.keys tables).
Proof.
  intros Hrun.
  destruct (get_contributor_table_ok _ _ _ _ _ _ _ _ _ _ Hrun)
    as (rows & _ & _ & ->).
  rewrite keys_make_tables. apply keys_group_rows_NoDup. constructor.
Qed.

Lemma zip_snd_same_length {A B} (l : list A) (k : list B) :
  length l = length k → (zip l k).*2 = k.
Proof.
  revert k. induction l as [|x l IH]; intros [|y k] Hlen; try done.
  cbn [zip zip_with]. rewrite fmap_cons. cbn [snd].
  f_equal. apply IH. by injection Hlen.
Qed.

Lemma group_of_nothing_shown c : group_of [] c = "Independent".
Proof.
  unfold group_of. rewrite bool_decide_eq_false_2 by apply not_elem_of_nil.
  induction (default [] (ContributorStats.organizations c)) as [|org orgs IH];
    [done |].
  by rewrite filter_cons_False by apply not_elem_of_nil.
Qed.

Lemma group_rows_nothing_shown (rows : list (ContributorStats.t * string)) :
  ∀ filed,
    group_rows [] rows [("Independent", filed)]
    = [("Independent", filed ++ rows.*2)].
Proof.
  induction rows as [|p rows IH]; intros filed.
  - cbn. by rewrite app_nil_r.
  - rewrite group_rows_cons, group_of_nothing_shown. cbn [Dict.append_to].
    rewrite bool_decide_eq_true_2 by done. rewrite IH, fmap_cons.
    by rewrite <- app_assoc.
Qed.

End WholeReport.

(** X6: whenever [get_contributor_table] returns, [write_to_markdown] writes
    the file: the writer raises nothing of its own, its look-ups in the
    dictionary of tables cannot miss.  The file then holds the head, the
    summary table with the sum of the counts, the sections of the groups and
    the footer. *)
Theorem report_written_when_tables_built `{PyRuntime} fs cs filename
    start_date end_date organization repository sponsor_info link_to_profile
    show tables total :
  get_contributor_table cs start_date end_date organization repository
    sponsor_info link_to_profile show = Ok (tables, total) →
  write_to_markdown fs cs filename start_date end_date organization repository
    sponsor_info link_to_profile show
  = Ok (<[filename :=
            markdown_head start_date end_date organization repository
            +:+ get_summary_table cs start_date end_date (sum_contributions cs)
            +:+ sections ("## Independent " +:+ LF) tables
            +:+ footer]> fs).
Proof.
  intros Hrun. pose proof (tables_keys_NoDup _ _ _ _ _ _ _ _ _ _ Hrun) as Hnd.
  destruct (get_contributor_table_ok _ _ _ _ _ _ _ _ _ _ Hrun)
    as (rows & _ & -> & _).
  unfold write_to_markdown, write_markdown_file. rewrite Hrun. cbn [bind].
  by rewrite markdown_text_spec.
Qed.

Lemma report_written_when_tables_built_witness :
  get_contributor_table Examples.collaborators (Some "2024-01-01")
    (Some "2024-02-01") (Some "org1") PyNone "true" "true" ["org2"]
  = Ok (Examples.tables, 13%Z)
  ∧ write_to_markdown (H := Examples.runtime) ∅ Examples.collaborators
      "contributors.md" (Some "2024-01-01") (Some "2024-02-01") (Some "org1")
      PyNone "true" "true" ["org2"]
    = Ok (<["contributors.md" :=
              markdown_head (H := Examples.runtime) (Some "2024-01-01")
                (Some "2024-02-01") (Some "org1") PyNone
              +:+ get_summary_table (H := Examples.runtime)
                    Examples.collaborators (Some "2024-01-01")
                    (Some "2024-02-01")
                    (sum_contributions Examples.collaborators)
              +:+ sections ("## Independent " +:+ LF) Examples.tables
              +:+ footer]> ∅).
Proof.
  assert (Hrun :
    get_contributor_table Examples.collaborators (Some "2024-01-01")
      (Some "2024-02-01") (Some "org1") PyNone "true" "true" ["org2"]
    = Ok (Examples.tables, 13%Z)) by (vm_compute; reflexivity).
  exact (conj Hrun
           (report_written_when_tables_built (H := Examples.runtime) ∅ _
              "contributors.md" _ _ _ _ _ _ _ _ _ Hrun)).
Defined.

(** X7: when no organization is to be shown (the allow-list is empty) and
    there is a contributor, all rows are in the one table of
    ["Independent"], in input order, and the document holds that table
    without any heading. *)
Theorem nothing_shown_one_table `{PyRuntime} cs start_date end_date
    organization repository sponsor_info link_to_profile tables total :
  cs ≠ [] →
  get_contributor_table cs start_date end_date organization repository
    sponsor_info link_to_profile [] = Ok (tables, total) →
  let columns := table_columns start_date end_date sponsor_info in
  ∃ rows,
    Forall2 (is_row_of organization repository link_to_profile columns) cs rows
    ∧ tables = [("Independent", table_headers columns +:+ PyStr.concat rows)]
    ∧ ∀ fs filename,
        write_to_markdown fs cs filename start_date end_date organization
          repository sponsor_info link_to_profile []
        = Ok (<[filename :=
                  markdown_head start_date end_date organization repository
                  +:+ get_summary_table cs start_date end_date
                        (sum_contributions cs)
                  +:+ (table_headers columns +:+ PyStr.concat rows)
                  +:+ footer]> fs).
Proof.
  intros Hcs Hrun columns.
  destruct (get_contributor_table_ok _ _ _ _ _ _ _ _ _ _ Hrun)
    as (rows & Hrows & Htotal & Htables).
  exists rows. split; [done |].
  assert (Hone : tables
                 = [("Independent",
                     table_headers columns +:+ PyStr.concat rows)]).
  { rewrite Htables. fold columns.
    destruct cs as [|c cs]; [done |].
    apply Forall2_cons_inv_l in Hrows as (row & rows' & _ & Hrows & ->).
    cbn [zip zip_with]. rewrite group_rows_cons, group_of_nothing_shown.
    cbn [Dict.append_to fst snd]. rewrite group_rows_nothing_shown.
    fold (zip cs rows').
    rewrite zip_snd_same_length by (by eapply Forall2_length).
    done. }
  split; [done |]. intros fs filename.
  unfold write_to_markdown, write_markdown_file. rewrite Hrun. cbn [bind].
  rewrite markdown_text_spec.
  - cbn [bind]. rewrite Htotal, Hone. unfold sections.
    cbn [Dict.get]. rewrite bool_decide_eq_true_2 by done.
    cbn [length]. by rewrite bool_decide_eq_true_2 by done.
  - rewrite Hone. apply NoDup_singleton.
Qed.

Lemma nothing_shown_one_table_witness :
  [Examples.alice; Examples.bob] ≠ []
  ∧ get_contributor_table [Examples.alice; Examples.bob] None None None
      (PyStr "org1/repo1") "false" "false" []
    = Ok ([("Independent",
            table_headers (table_columns None None "false")
            +:+ PyStr.concat
                  [table_row "false" (table_columns None None "false")
                     Examples.alice
                     (ContributorStats.commit_url Examples.alice);
                   table_row "false" (table_columns None None "false")
                     Examples.bob
                     (ContributorStats.commit_url Examples.bob)])], 12%Z)
  ∧ ∃ rows,
      Forall2
        (is_row_of None (PyStr "org1/repo1") "false"
           (table_columns None None "false"))
        [Examples.alice; Examples.bob] rows
      ∧ ∀ fs filename,
          write_to_markdown (H := Examples.runtime) fs
            [Examples.alice; Examples.bob] filename None None None
            (PyStr "org1/repo1") "false" "false" []
          = Ok (<[filename :=
                    markdown_head (H := Examples.runtime) None None None
                      (PyStr "org1/repo1")
                    +:+ get_summary_table (H := Examples.runtime)
                          [Examples.alice; Examples.bob] None None
                          (sum_contributions [Examples.alice; Examples.bob])
                    +:+ (table_headers (table_columns None None "false")
                         +:+ PyStr.concat rows)
                    +:+ footer]> fs).
Proof.
  assert (Hcs : [Examples.alice; Examples.bob] ≠ []) by discriminate.
  assert (Hrun :
    get_contributor_table [Examples.alice; Examples.bob] None None None
      (PyStr "org1/repo1") "false" "false" []
    = Ok ([("Independent",
            table_headers (table_columns None None "false")
            +:+ PyStr.concat
                  [table_row "false" (table_columns None None "false")
                     Examples.alice
                     (ContributorStats.commit_url Examples.alice);
                   table_row "false" (table_columns None None "false")
                     Examples.bob
                     (ContributorStats.commit_url Examples.bob)])], 12%Z))
    by (vm_compute; reflexivity).
  split; [exact Hcs |]. split; [exact Hrun |].
  destruct (nothing_shown_one_table (H := Examples.runtime) _ _ _ _ _ _ _ _ _
              Hcs Hrun) as (rows & Hrows & _ & Hwrite).
  exists rows. split; [exact Hrows | exact Hwrite].
Defined.



(** Without the condition the two differ: the empty name is falsy, the list
    holding it is not. *)
Example empty_scalar_repository_differs :
  get_contributor_table [Examples.bob] None None None (PyStr "") "false"
    "true" [] = Raise UnboundLocalError
  ∧ ∃ tables,
      get_contributor_table [Examples.bob] None None None (PyList [PyStr ""])
        "false" "true" [] = Ok (tables, 7%Z).
Proof. split; [done | by eexists]. Qed.

(** ** Fields of columns that are not shown *)

Section HiddenColumns.

Context `{PyRuntime}.

Lemma for_collaborators_fmap organization link_to_profile show columns
    (f : ContributorStats.t → ContributorStats.t) cs :
  (∀ vars c,
     loop_body organization link_to_profile show columns vars (f c)
     = loop_body organization link_to_profile show columns vars c) →
  ∀ vars,
    for_collaborators organization link_to_profile show columns (f <$> cs) vars
    = for_collaborators organization link_to_profile show columns cs vars.
Proof.
  intros Hbody. induction cs as [|c cs IH]; intros vars; [done |].
  rewrite fmap_cons. cbn [for_collaborators]. rewrite Hbody.
  destruct (loop_body _ _ _ _ vars c) as [vars1 |]; [| done].
  cbn [bind]. apply IH.
Qed.

Lemma loop_body_without_sponsor organization link_to_profile show columns
    vars c :
  bool_decide ("Sponsor URL" ∈ columns) = false →
  loop_body organization link_to_profile show columns vars (without_sponsor c)
  = loop_body organization link_to_profile show columns vars c.
Proof.
  intros Hcol. unfold loop_body, row_start, assign_row, without_sponsor.
  cbn [ContributorStats.username ContributorStats.contribution_count
       ContributorStats.new_contributor ContributorStats.commit_url
       ContributorStats.organizations ContributorStats.sponsor_info].
  by rewrite Hcol.
Qed.

Lemma loop_body_without_new_flag organization link_to_profile show columns
    vars c :
  bool_decide ("New Contributor" ∈ columns) = false →
  loop_body organization link_to_profile show columns vars (without_new_flag c)
  = loop_body organization link_to_profile show columns vars c.
Proof.
  intros Hcol. unfold loop_body, row_start, assign_row, without_new_flag.
  cbn [ContributorStats.username ContributorStats.contribution_count
       ContributorStats.new_contributor ContributorStats.commit_url
       ContributorStats.organizations ContributorStats.sponsor_info].
  by rewrite Hcol.
Qed.

Lemma new_contributors_without_sponsor cs :
  length (filter (λ x, ContributorStats.new_contributor x = true)
            (without_sponsor <$> cs))
  = length (filter (λ x, ContributorStats.new_contributor x = true) cs).
Proof.
  induction cs as [|c cs IH]; [done |].
  rewrite fmap_cons, !filter_cons. cbn [without_sponsor
    ContributorStats.new_contributor].
  destruct (decide (ContributorStats.new_contributor c = true));
    cbn [length]; by rewrite IH.
Qed.

Lemma get_summary_table_without_sponsor cs start_date end_date total :
  get_summary_table (without_sponsor <$> cs) start_date end_date total
  = get_summary_table cs start_date end_date total.
Proof.
  unfold get_summary_table.
  by rewrite new_contributors_without_sponsor, length_fmap.
Qed.

Lemma get_summary_table_without_new_flag cs start_date end_date total :
  is_range start_date end_date = false →
  get_summary_table (without_new_flag <$> cs) start_date end_date total
  = get_summary_table cs start_date end_date total.
Proof.
  unfold get_summary_table, is_range. intros ->. by rewrite length_fmap.
Qed.

End HiddenColumns.

(** X10: unless the sponsor column is requested ([sponsor_info == "true"]),
    the report does not depend on the sponsorship addresses of the
    contributors: blanking them all leaves what [write_to_markdown] does
    unchanged. *)
Theorem sponsor_addresses_not_shown `{PyRuntime} fs cs filename start_date
    end_date organization repository sponsor_info link_to_profile show :
  sponsor_info ≠ "true" →
  write_to_markdown fs (without_sponsor <$> cs) filename start_date end_date
    organization repository sponsor_info link_to_profile show
  = write_to_markdown fs cs filename start_date end_date organization
      repository sponsor_info link_to_profile show.
Proof.
  intros Hflag. unfold write_to_markdown, get_contributor_table.
  rewrite for_collaborators_fmap.
  - destruct (for_collaborators _ _ _ _ cs _) as [vars' |]; [| done].
    cbn [bind]. by rewrite get_summary_table_without_sponsor.
  - intros vars c. apply loop_body_without_sponsor.
    rewrite sponsor_column. by apply String.eqb_neq.
Qed.

Lemma sponsor_addresses_not_shown_witness :
  "false" ≠ "true"
  ∧ write_to_markdown (H := Examples.runtime) ∅
      (without_sponsor <$> Examples.collaborators) "contributors.md"
      (Some "2024-01-01") (Some "2024-02-01") (Some "org1") PyNone "false"
      "true" ["org2"]
    = write_to_markdown (H := Examples.runtime) ∅ Examples.collaborators
        "contributors.md" (Some "2024-01-01") (Some "2024-02-01")
        (Some "org1") PyNone "false" "true" ["org2"].
Proof.
  assert (Hflag : "false" ≠ "true") by discriminate.
  exact (conj Hflag
           (sponsor_addresses_not_shown (H := Examples.runtime) ∅
              Examples.collaborators "contributors.md" (Some "2024-01-01")
              (Some "2024-02-01") (Some "org1") PyNone "false" "true" ["org2"]
              Hflag)).
Defined.

(** X11: outside range mode (a date is missing) the report does not depend
    on which contributors are new: neither the rows nor the summary table
    read the flag. *)
Theorem new_flags_not_shown `{PyRuntime} fs cs filename start_date end_date
    organization repository sponsor_info link_to_profile show :
  truthy_str start_date && truthy_str end_date = false →
  write_to_markdown fs (without_new_flag <$> cs) filename start_date end_date
    organization repository sponsor_info link_to_profile show
  = write_to_markdown fs cs filename start_date end_date organization
      repository sponsor_info link_to_profile show.
Proof.
  intros Hrange. unfold write_to_markdown, get_contributor_table.
  rewrite for_collaborators_fmap.
  - destruct (for_collaborators _ _ _ _ cs _) as [vars' |]; [| done].
    cbn [bind]. by rewrite get_summary_table_without_new_flag.
  - intros vars c. apply loop_body_without_new_flag.
    by rewrite new_contributor_column.
Qed.

Lemma new_flags_not_shown_witness :
  truthy_str (Some "2024-01-01") && truthy_str None = false
  ∧ write_to_markdown (H := Examples.runtime) ∅
      (without_new_flag <$> Examples.collaborators) "contributors.md"
      (Some "2024-01-01") None (Some "org1") PyNone "true" "true" ["org2"]
    = write_to_markdown (H := Examples.runtime) ∅ Examples.collaborators
        "contributors.md" (Some "2024-01-01") None (Some "org1") PyNone "true"
        "true" ["org2"].
Proof.
  assert (Hrange : truthy_str (Some "2024-01-01") && truthy_str None = false)
    by reflexivity.
  exact (conj Hrange
           (new_flags_not_shown (H := Examples.runtime) ∅
              Examples.collaborators "contributors.md" (Some "2024-01-01") None
              (Some "org1") PyNone "true" "true" ["org2"] Hrange)).
Defined.
